(** * json2geo: extraction, validation and ring orientation of embedded GeoJSON

    A shallow embedding of [json2geo/json2geo.py] and the properties of its
    extraction / validation / orientation pipeline.

    Modelling conventions.
    - A parsed JSON document (the value returned by [json.load]) is a [json]
      tree.  A Python [dict] is an association list with one entry per key,
      read with first-match lookup; a Python [list] is a [list].
    - A JSON number is what [json.load] makes of it: a Python [int], an
      unbounded integer ([Z]), or a Python [float], an IEEE binary64 value
      (the primitive [float] of Rocq, with the same arithmetic).
    - Text is ASCII: [str.upper] maps [a-z] to [A-Z] and keeps every other
      character.
    - A Python exception is a [Raise e] result; every function that can raise
      returns a [result].
    - In-place mutation ([ring.reverse()], [self.features.append]) is explicit
      state passing: the function returns the new value of the object it
      mutates.  [json.load] builds a fresh object for every node, so no two
      positions of a document alias each other.  What a call had already
      mutated when it raises is not kept: nothing reads it afterwards. *)

From Stdlib Require Import List String Ascii ZArith QArith Floats Bool Lia.
Import ListNotations.

Local Open Scope string_scope.
Local Open Scope list_scope.

(** ** Exceptions and results *)

Inductive exn : Type :=
| KeyError
| IndexError
| TypeError
| AttributeError
| ValueError
| OverflowError
| OSError
| JSONDecodeError.

Inductive result (A : Type) : Type :=
| Ok (a : A)
| Raise (e : exn).

Arguments Ok {A} a.
Arguments Raise {A} e.

Definition bind {A B : Type} (m : result A) (k : A -> result B) : result B :=
  match m with
  | Ok a => k a
  | Raise e => Raise e
  end.

Declare Scope py_scope.
Delimit Scope py_scope with py.
Notation "x <- m ;; k" := (bind m (fun x => k))
  (at level 61, m at next level, right associativity) : py_scope.
Notation "' p <- m ;; k" := (bind m (fun x => let p := x in k))
  (at level 61, p pattern, m at next level, right associativity) : py_scope.
Local Open Scope py_scope.

(** ** Parsed JSON values *)

(** A Python number: an [int] or a [float]. *)
Inductive number : Type :=
| NInt (z : Z)
| NFloat (f : float).

#[warnings="-register-all"] Inductive json : Type :=
| JNull
| JBool (b : bool)
| JNum (n : number)
| JStr (s : string)
| JArr (l : list json)
| JObj (m : list (string * json)).

(** [d.get(k)] on the association list of a dict. *)
Fixpoint assoc (k : string) (m : list (string * json)) : option json :=
  match m with
  | [] => None
  | (k', v) :: m' => if String.eqb k k' then Some v else assoc k m'
  end.

(** Rebinding of an existing key (the dict keeps its shape). *)
Fixpoint assoc_set (k : string) (v : json) (m : list (string * json))
  : list (string * json) :=
  match m with
  | [] => []
  | (k', v') :: m' =>
      if String.eqb k k' then (k', v) :: m' else (k', v') :: assoc_set k v m'
  end.

(** ** The Python primitives the program uses *)

(** The one-character strings of a string, as [iter(s)] yields them. *)
Fixpoint chars (s : string) : list json :=
  match s with
  | EmptyString => []
  | String c s' => JStr (String c EmptyString) :: chars s'
  end.

(** [needle in hay] on two strings. *)
Fixpoint substringb (needle hay : string) : bool :=
  String.prefix needle hay
  || match hay with
     | EmptyString => false
     | String _ hay' => substringb needle hay'
     end.

(** [v == s] for a string literal [s]. *)
Definition py_eq_str (v : json) (s : string) : bool :=
  match v with
  | JStr s' => String.eqb s' s
  | _ => false
  end.

(** [bool(v)]. *)
Definition py_truthy (v : json) : bool :=
  match v with
  | JNull => false
  | JBool b => b
  | JNum (NInt z) => negb (z =? 0)%Z
  | JNum (NFloat f) => negb (PrimFloat.eqb f 0%float)
  | JStr s => negb (String.eqb s "")
  | JArr l => match l with [] => false | _ => true end
  | JObj m => match m with [] => false | _ => true end
  end.

(** [len(v)]. *)
Definition py_len (v : json) : result nat :=
  match v with
  | JStr s => Ok (String.length s)
  | JArr l => Ok (List.length l)
  | JObj m => Ok (List.length m)
  | _ => Raise TypeError
  end.

(** [v[i]] for a non-negative integer [i]. *)
Definition py_getitem (v : json) (i : nat) : result json :=
  match v with
  | JArr l => match nth_error l i with Some x => Ok x | None => Raise IndexError end
  | JStr s => match nth_error (chars s) i with Some x => Ok x | None => Raise IndexError end
  | JObj _ => Raise KeyError
  | _ => Raise TypeError
  end.

(** [v[k]] for a string key [k]. *)
Definition py_getkey (v : json) (k : string) : result json :=
  match v with
  | JObj m => match assoc k m with Some x => Ok x | None => Raise KeyError end
  | _ => Raise TypeError
  end.

(** [k in v] for a string [k]. *)
Definition py_in (k : string) (v : json) : result bool :=
  match v with
  | JObj m => Ok (match assoc k m with Some _ => true | None => false end)
  | JArr l => Ok (existsb (fun x => py_eq_str x k) l)
  | JStr s => Ok (substringb k s)
  | _ => Raise TypeError
  end.

(** The items a [for] loop over [v] visits. *)
Definition py_iter (v : json) : result (list json) :=
  match v with
  | JArr l => Ok l
  | JStr s => Ok (chars s)
  | JObj m => Ok (map (fun kv => JStr (fst kv)) m)
  | _ => Raise TypeError
  end.

(** [v[1:]], as the list of its items. *)
Definition py_slice_from1 (v : json) : result (list json) :=
  match v with
  | JArr l => Ok (tl l)
  | JStr s => Ok (tl (chars s))
  | _ => Raise TypeError
  end.

(** [l[:r]] on a list, for any integer [r]. *)
Definition py_slice_to {A : Type} (l : list A) (r : Z) : list A :=
  if (0 <=? r)%Z then firstn (Z.to_nat r) l
  else firstn (List.length l - Z.to_nat (- r)) l.

Definition isinstance_dict (v : json) : bool :=
  match v with JObj _ => true | _ => false end.

Definition isinstance_list (v : json) : bool :=
  match v with JArr _ => true | _ => false end.

(** [str.upper] on strings of ASCII characters: the letters [a] to [z] are
    capitalised, every other character is kept.  Beyond ASCII Python also
    folds a few letters to ASCII capitals (the dotless i, the long s, the st
    ligature); such names are outside the strings modelled here. *)
Definition upper_ascii (c : ascii) : ascii :=
  let n := nat_of_ascii c in
  if (97 <=? n)%nat && (n <=? 122)%nat then ascii_of_nat (n - 32) else c.

Fixpoint upper (s : string) : string :=
  match s with
  | EmptyString => EmptyString
  | String c s' => String (upper_ascii c) (upper s')
  end.

(** [v.upper()]: only a string has the method. *)
Definition py_upper (v : json) : result string :=
  match v with
  | JStr s => Ok (upper s)
  | _ => Raise AttributeError
  end.

(** The number a value stands for in arithmetic ([bool] is a subclass of
    [int]). *)
Definition numeric (v : json) : option number :=
  match v with
  | JNum n => Some n
  | JBool b => Some (NInt (if b then 1 else 0))
  | _ => None
  end.

(** [float(z)] for an int: the nearest double, ties to even; an int beyond
    the range of the doubles raises. *)
Definition float_of_int (z : Z) : result float :=
  let f := SF2Prim (binary_normalize prec emax z 0 false) in
  if PrimFloat.is_infinity f then Raise OverflowError else Ok f.

Definition as_float (n : number) : result float :=
  match n with
  | NInt z => float_of_int z
  | NFloat f => Ok f
  end.

(** A binary operator of Python on two numbers: exact on two ints; when one
    operand is a float the other is converted and the operation is the one
    of the doubles. *)
Definition arith (on_int : Z -> Z -> Z) (on_float : float -> float -> float)
           (a b : number) : result number :=
  match a, b with
  | NInt x, NInt y => Ok (NInt (on_int x y))
  | _, _ =>
      x <- as_float a ;;
      y <- as_float b ;;
      Ok (NFloat (on_float x y))
  end.

Definition num_add : number -> number -> result number := arith Z.add PrimFloat.add.
Definition num_sub : number -> number -> result number := arith Z.sub PrimFloat.sub.
Definition num_mul : number -> number -> result number := arith Z.mul PrimFloat.mul.

(** [a * b] as it is used by [area += a * b]: two numbers give their product;
    in every other case the statement raises [TypeError], either at [*] or,
    when [*] repeats a string or list, at the following [+=] / [-=].  (A
    repetition too large to build fails earlier, with [OverflowError] or
    [MemoryError]; either way the statement raises.) *)
Definition py_mul (a b : json) : result number :=
  match numeric a, numeric b with
  | Some x, Some y => num_mul x y
  | _, _ => Raise TypeError
  end.

(** The value of [area / 2], always a float.  For a float [area] it is the
    quotient of the doubles.  For an int [area] true division gives the
    double nearest to the exact quotient, and raises when that is beyond the
    range of the doubles; this value is kept as the int it is half of. *)
Inductive half : Type :=
| HalfInt (z : Z)
| HalfFloat (f : float).

(** The least [|area|] of an int at which [area / 2] overflows. *)
Definition half_overflow : Z := (2 ^ 1025 - 2 ^ 971)%Z.

Definition halve (area : number) : result half :=
  match area with
  | NInt z => if (half_overflow <=? Z.abs z)%Z then Raise OverflowError else Ok (HalfInt z)
  | NFloat f => Ok (HalfFloat (f / 2)%float)
  end.

(** [area < 0] and [area > 0] on the value of [area / 2].  The double nearest
    to half an int has the sign of the int (it is [0] or at least [1/2] in
    magnitude). *)
Definition is_negative (area : half) : bool :=
  match area with
  | HalfInt z => (z <? 0)%Z
  | HalfFloat f => (f <? 0)%float
  end.

Definition is_positive (area : half) : bool :=
  match area with
  | HalfInt z => (0 <? z)%Z
  | HalfFloat f => (0 <? f)%float
  end.

(** ** GeometryTypes: the flag enumeration *)

Module GeometryTypes.
Definition t : Type := Z.
Definition NONE : t := 0%Z.
Definition POINT : t := 1%Z.
Definition LINESTRING : t := 2%Z.
Definition POLYGON : t := 4%Z.
Definition MULTIPOINT : t := 8%Z.
Definition MULTILINESTRING : t := 16%Z.
Definition MULTIPOLYGON : t := 32%Z.
Definition GEOMETRYCOLLECTION : t := 64%Z.
Definition ALL : t :=
  Z.lor POINT (Z.lor LINESTRING (Z.lor POLYGON (Z.lor MULTIPOINT
    (Z.lor MULTILINESTRING (Z.lor MULTIPOLYGON GEOMETRYCOLLECTION))))).

(** [getattr(GeometryTypes, name, GeometryTypes.NONE)]: the class has the
    nine members above as attributes whose names are upper case; no other
    attribute of a [Flag] class has a name without a lower-case letter. *)
Definition getattr (name : string) : t :=
  if String.eqb name "NONE" then NONE
  else if String.eqb name "POINT" then POINT
  else if String.eqb name "LINESTRING" then LINESTRING
  else if String.eqb name "POLYGON" then POLYGON
  else if String.eqb name "MULTIPOINT" then MULTIPOINT
  else if String.eqb name "MULTILINESTRING" then MULTILINESTRING
  else if String.eqb name "MULTIPOLYGON" then MULTIPOLYGON
  else if String.eqb name "GEOMETRYCOLLECTION" then GEOMETRYCOLLECTION
  else if String.eqb name "ALL" then ALL
  else NONE.

(** [bool(a & b)]. *)
Definition intersects (a b : t) : bool := negb (Z.eqb (Z.land a b) 0).
End GeometryTypes.

(** ** Ring orientation *)

(** The loop of [calculate_area]: [n] iterations left, starting at index [i]. *)
Fixpoint area_loop (ring : json) (i n : nat) (area : number) : result number :=
  match n with
  | O => Ok area
  | S n' =>
      let j := (i + 1)%nat in
      ri <- py_getitem ring i ;;
      xi <- py_getitem ri 0 ;;
      rj <- py_getitem ring j ;;
      yj <- py_getitem rj 1 ;;
      p <- py_mul xi yj ;;
      area <- num_add area p ;;
      rj <- py_getitem ring j ;;
      xj <- py_getitem rj 0 ;;
      ri <- py_getitem ring i ;;
      yi <- py_getitem ri 1 ;;
      q <- py_mul xj yi ;;
      area <- num_sub area q ;;
      area_loop ring (S i) n' area
  end.

Definition calculate_area (ring : json) : result half :=
  n <- py_len ring ;;
  area <- area_loop ring 0 (n - 1) (NInt 0) ;;
  halve area.

(** [ring.reverse()]: the new contents of the list. *)
Definition reverse_ring (ring : json) : result json :=
  match ring with
  | JArr l => Ok (JArr (rev l))
  | _ => Raise AttributeError
  end.

(** The loop over the interior rings: the changed flag it sets and the rings
    as it leaves them. *)
Fixpoint fix_holes (rings : list json) : result (bool * list json) :=
  match rings with
  | [] => Ok (false, [])
  | ring :: rest =>
      area <- calculate_area ring ;;
      '(c, ring') <- (if is_positive area
                      then r <- reverse_ring ring ;; Ok (true, r)
                      else Ok (false, ring)) ;;
      '(c', rest') <- fix_holes rest ;;
      Ok (c || c', ring' :: rest')
  end.

(** [fix_polygon_orientation(coordinates)]: the returned flag and the contents
    of [coordinates] afterwards.  Only lists are ever mutated, so a value that
    is not a list is returned as it is. *)
Definition fix_polygon_orientation (coordinates : json) : result (bool * json) :=
  ring0 <- py_getitem coordinates 0 ;;
  area <- calculate_area ring0 ;;
  '(changed, ring0') <- (if is_negative area
                         then r <- reverse_ring ring0 ;; Ok (true, r)
                         else Ok (false, ring0)) ;;
  holes <- py_slice_from1 coordinates ;;
  '(changed', holes') <- fix_holes holes ;;
  Ok (changed || changed',
      match coordinates with
      | JArr _ => JArr (ring0' :: holes')
      | _ => coordinates
      end).

(** The loop over the polygons of a MultiPolygon. *)
Fixpoint fix_polygons (polygons : list json) : result (bool * list json) :=
  match polygons with
  | [] => Ok (false, [])
  | polygon :: rest =>
      '(c, polygon') <- fix_polygon_orientation polygon ;;
      '(c', rest') <- fix_polygons rest ;;
      Ok (c || c', polygon' :: rest')
  end.

(** The geometry object once the value under ['coordinates'] has been mutated. *)
Definition with_coordinates (geometry coordinates : json) : json :=
  match geometry with
  | JObj m => JObj (assoc_set "coordinates" coordinates m)
  | _ => geometry
  end.

(** [fix_geometry_orientation(geometry)]: the returned flag and the geometry
    afterwards. *)
Definition fix_geometry_orientation (geometry : json) : result (bool * json) :=
  if negb (py_truthy geometry) then Ok (false, geometry)
  else
    has_type <- py_in "type" geometry ;;
    if negb has_type then Ok (false, geometry)
    else
      ty <- py_getkey geometry "type" ;;
      if py_eq_str ty "Polygon" then
        coordinates <- py_getkey geometry "coordinates" ;;
        '(changed, coordinates') <- fix_polygon_orientation coordinates ;;
        Ok (changed, with_coordinates geometry coordinates')
      else
        ty <- py_getkey geometry "type" ;;
        if py_eq_str ty "MultiPolygon" then
          coordinates <- py_getkey geometry "coordinates" ;;
          polygons <- py_iter coordinates ;;
          '(changed, polygons') <- fix_polygons polygons ;;
          Ok (changed,
              with_coordinates geometry
                (match coordinates with
                 | JArr _ => JArr polygons'
                 | _ => coordinates
                 end))
        else Ok (false, geometry).

(** ** GeoJSONParser *)

Record GeoJSONParser : Type := mkParser {
  features : list json;
  limit : option Z;
  require_geometry : bool;
  geometry_types : GeometryTypes.t
}.

(** [GeoJSONParser(limit, require_geometry, geometry_types)]. *)
Definition new_parser (l : option Z) (rg : bool) (gt : GeometryTypes.t)
  : GeoJSONParser :=
  mkParser [] l rg gt.

Definition with_features (self : GeoJSONParser) (fs : list json) : GeoJSONParser :=
  mkParser fs (limit self) (require_geometry self) (geometry_types self).

(** Truth value of [self.limit]: [None] and [0] are false. *)
Definition limit_truthy (self : GeoJSONParser) : bool :=
  match limit self with
  | Some n => negb (n =? 0)%Z
  | None => false
  end.

(** [self.limit and len(self.features) >= self.limit]. *)
Definition limit_reached (self : GeoJSONParser) : bool :=
  match limit self with
  | Some n => negb (n =? 0)%Z && (n <=? Z.of_nat (List.length (features self)))%Z
  | None => false
  end.

Definition has_key (k : string) (m : list (string * json)) : bool :=
  match assoc k m with Some _ => true | None => false end.

(** ['geometry' in d and d['geometry'] is not None]. *)
Definition has_geometry (m : list (string * json)) : bool :=
  match assoc "geometry" m with
  | Some JNull => false
  | Some _ => true
  | None => false
  end.

(** [is_valid_geojson]: no operation of it can raise. *)
Definition is_valid_geojson (self : GeoJSONParser) (data : json) : bool :=
  match data with
  | JObj m =>
      match assoc "type" m with
      | None => false
      | Some ty =>
          if py_eq_str ty "Feature" then
            has_key "properties" m && (negb (require_geometry self) || has_geometry m)
          else if py_eq_str ty "FeatureCollection" then
            match assoc "features" m with
            | Some fs => isinstance_list fs
            | None => false
            end
          else true
      end
  | _ => false
  end.

Definition is_valid_feature (self : GeoJSONParser) (feature : json) : result bool :=
  match feature with
  | JObj m =>
      if negb (has_key "type" m) then Ok false
      else
        let has_properties := has_key "properties" m in
        let has_geom := has_geometry m in
        if negb has_properties || (require_geometry self && negb has_geom) then Ok false
        else if negb has_geom && negb (require_geometry self) then Ok true
        else
          geometry <- py_getkey feature "geometry" ;;
          geometry_type <- py_getkey geometry "type" ;;
          name <- py_upper geometry_type ;;
          let type_flag := GeometryTypes.getattr name in
          Ok (GeometryTypes.intersects (geometry_types self) type_flag)
  | _ => Ok false
  end.

(** The list comprehension [[f for f in fs if self.is_valid_feature(f)]]. *)
Fixpoint valid_features (self : GeoJSONParser) (fs : list json) : result (list json) :=
  match fs with
  | [] => Ok []
  | f :: rest =>
      ok <- is_valid_feature self f ;;
      rest' <- valid_features self rest ;;
      Ok (if ok then f :: rest' else rest')
  end.

(** [extract_features(data)]: the parser afterwards.  The only mutation is the
    final [append] / [extend], so when the call raises the parser is as it
    was. *)
Definition extract_features (self : GeoJSONParser) (data : json)
  : result GeoJSONParser :=
  if limit_reached self then Ok self
  else
    present <- py_in "property_geojson" data ;;
    if negb present then Ok self
    else
      geojson_data <- py_getkey data "property_geojson" ;;
      if negb (is_valid_geojson self geojson_data) then Ok self
      else
        ty <- py_getkey geojson_data "type" ;;
        if py_eq_str ty "Feature" then
          ok <- is_valid_feature self geojson_data ;;
          if ok then
            if negb (limit_truthy self)
               || (Z.of_nat (List.length (features self)) <? match limit self with Some n => n | None => 0 end)%Z
            then Ok (with_features self (features self ++ [geojson_data]))
            else Ok self
          else Ok self
        else
          ty <- py_getkey geojson_data "type" ;;
          if py_eq_str ty "FeatureCollection" then
            fs <- py_getkey geojson_data "features" ;;
            items <- py_iter fs ;;
            valid <- valid_features self items ;;
            match (if limit_truthy self
                   then match limit self with
                        | Some n => Some (n - Z.of_nat (List.length (features self)))%Z
                        | None => None
                        end
                   else None) with
            | Some remaining =>
                Ok (with_features self (features self ++ py_slice_to valid remaining))
            | None => Ok (with_features self (features self ++ valid))
            end
          else Ok self.

(** What the program prints. *)
Inductive message : Type :=
| ErrorParsingFile (e : exn)
| ErrorSavingFile (e : exn)
| SuccessfullyExtracted (n : nat)
| FixedOrientation (n : nat).

(** The loop of [parse_file] over the records of [data]: the parser when the
    loop ends and the exception that ended it, if one did. *)
Fixpoint parse_items (self : GeoJSONParser) (items : list json)
  : GeoJSONParser * option exn :=
  match items with
  | [] => (self, None)
  | item :: rest =>
      if limit_reached self then (self, None)
      else match extract_features self item with
           | Ok self' => parse_items self' rest
           | Raise e => (self, Some e)
           end
  end.

(** The body of the [try] of [parse_file] once the document is loaded. *)
Definition parse_document (self : GeoJSONParser) (json_data : json)
  : GeoJSONParser * option exn :=
  if isinstance_dict json_data
     && match json_data with JObj m => has_key "data" m | _ => false end
  then
    match (d <- py_getkey json_data "data" ;; py_iter d) with
    | Ok items => parse_items self items
    | Raise e => (self, Some e)
    end
  else
    match extract_features self json_data with
    | Ok self' => (self', None)
    | Raise e => (self, Some e)
    end.

(** [parse_file(input_path)]: [loaded] is what [open] and [json.load] give,
    the document or the exception they raise.  Every exception is caught and
    printed. *)
Definition parse_file (self : GeoJSONParser) (loaded : result json)
  : GeoJSONParser * list message :=
  match loaded with
  | Raise e => (self, [ErrorParsingFile e])
  | Ok json_data =>
      match parse_document self json_data with
      | (self', None) => (self', [])
      | (self', Some e) => (self', [ErrorParsingFile e])
      end
  end.

(** The feature object once the value under ['geometry'] has been mutated. *)
Definition with_geometry (feature geometry : json) : json :=
  match feature with
  | JObj m => JObj (assoc_set "geometry" geometry m)
  | _ => feature
  end.

(** The orientation loop, written twice in the program (in [main] and in
    [save_geojson]): [fixed_count] and the features afterwards. *)
Fixpoint fix_features (fs : list json) : result (nat * list json) :=
  match fs with
  | [] => Ok (0%nat, [])
  | feature :: rest =>
      has <- py_in "geometry" feature ;;
      '(c, feature') <-
        (if has then
           g <- py_getkey feature "geometry" ;;
           if py_truthy g then
             g <- py_getkey feature "geometry" ;;
             '(changed, g') <- fix_geometry_orientation g ;;
             Ok (changed, with_geometry feature g')
           else Ok (false, feature)
         else Ok (false, feature)) ;;
      '(n, rest') <- fix_features rest ;;
      Ok (((if c then 1 else 0) + n)%nat, feature' :: rest')
  end.

(** The file at the output path when the run ends. *)
Inductive output_file : Type :=
| NoFile
| File (doc : json)
| FailedWrite.

Definition feature_collection (fs : list json) : json :=
  JObj [("type", JStr "FeatureCollection"); ("features", JArr fs)].

(** [save_geojson(output_path)]: [write_error] is the exception that [mkdir],
    [open] or [json.dump] raise, if they do. *)
Definition save_geojson (self : GeoJSONParser) (write_error : option exn)
  : GeoJSONParser * output_file * list message :=
  match fix_features (features self) with
  | Raise e => (self, NoFile, [ErrorSavingFile e])
  | Ok (fixed_count, fs) =>
      let self' := with_features self fs in
      match write_error with
      | Some e => (self', FailedWrite, [ErrorSavingFile e])
      | None =>
          (self', File (feature_collection fs),
           SuccessfullyExtracted (List.length fs)
           :: (if (0 <? fixed_count)%nat then [FixedOrientation fixed_count] else []))
      end
  end.

(** The command line, already parsed. *)
Record arguments : Type := mkArgs {
  arg_limit : option Z;
  arg_allow_empty_geom : bool;
  arg_flag : Z
}.

(** [GeometryTypes(args.flag)]: a value with a bit outside the seven raises;
    a negative value stands for the complement of its inverse. *)
Definition make_geometry_types (flag : Z) : result GeometryTypes.t :=
  if (0 <=? flag)%Z && (flag <=? GeometryTypes.ALL)%Z then Ok flag
  else if (- GeometryTypes.ALL - 1 <=? flag)%Z && (flag <? 0)%Z
       then Ok (GeometryTypes.ALL + 1 + flag)%Z
       else Raise ValueError.

(** What a run leaves behind: the printed lines, the output file, whether
    its name carries [_fixori], and the exception that ended the process if
    one escaped. *)
Record run : Type := mkRun {
  printed : list message;
  file : output_file;
  fixori : bool;
  uncaught : option exn
}.

Definition main (args : arguments) (loaded : result json) (write_error : option exn)
  : run :=
  match make_geometry_types (arg_flag args) with
  | Raise e => mkRun [] NoFile false (Some e)
  | Ok gt =>
      let parser := new_parser (arg_limit args) (negb (arg_allow_empty_geom args)) gt in
      let (parser, out1) := parse_file parser loaded in
      match fix_features (features parser) with
      | Raise e => mkRun out1 NoFile false (Some e)
      | Ok (fixed_count, fs) =>
          let parser := with_features parser fs in
          let '(_, f, out2) := save_geojson parser write_error in
          mkRun (out1 ++ out2) f (0 <? fixed_count)%nat None
      end
  end.

(** * Definitions for the statements *)

(** ** Rings of integer positions

    A position is a JSON array that starts with two numbers, the x and y of
    the point, and may go on (an altitude).  On integer positions the
    arithmetic of [calculate_area] is exact. *)

Definition position : Type := (Z * Z) * list json.

Definition px (p : position) : Z := fst (fst p).
Definition py (p : position) : Z := snd (fst p).

Definition coordinate (p : position) : json :=
  JArr (JNum (NInt (px p)) :: JNum (NInt (py p)) :: snd p).

Definition ring_of (pts : list position) : json := JArr (map coordinate pts).

Definition polygon_of (rings : list (list position)) : json :=
  JArr (map ring_of rings).

Definition multipolygon_of (polygons : list (list (list position))) : json :=
  JArr (map polygon_of polygons).

Definition origin : position := ((0, 0)%Z, []).

(** The signed area in the words of the specification: half the sum, for [i]
    from [0] to [len(ring) - 2], of [x[i] * y[i+1] - x[i+1] * y[i]]. *)
Definition shoelace_term (pts : list position) (i : nat) : Z :=
  (px (nth i pts origin) * py (nth (i + 1) pts origin)
   - px (nth (i + 1) pts origin) * py (nth i pts origin))%Z.

Definition shoelace_sum (pts : list position) : Z :=
  fold_right Z.add 0%Z (map (shoelace_term pts) (seq 0 (List.length pts - 1))).


(** The sum is small enough for [area / 2] to be a double. *)
Definition in_range (pts : list position) : Prop :=
  (Z.abs (shoelace_sum pts) < half_overflow)%Z.

(** The accumulator of [calculate_area] over the points of a ring. *)
Fixpoint area_acc (pts : list position) (acc : Z) : Z :=
  match pts with
  | [] => acc
  | a :: rest =>
      match rest with
      | [] => acc
      | b :: _ => area_acc rest (acc + px a * py b - px b * py a)%Z
      end
  end.

Definition cross (a b : position) : Z := (px a * py b - px b * py a)%Z.

Fixpoint cross_sum (pts : list position) : Z :=
  match pts with
  | [] => 0
  | a :: rest =>
      match rest with
      | [] => 0
      | b :: _ => cross a b + cross_sum rest
      end
  end%Z.

(** The ring a polygon keeps for its exterior and for a hole. *)
Definition oriented_exterior (pts : list position) : list position :=
  if (shoelace_sum pts <? 0)%Z then rev pts else pts.

Definition oriented_hole (pts : list position) : list position :=
  if (0 <? shoelace_sum pts)%Z then rev pts else pts.

Definition oriented_polygon (rings : list (list position)) : list (list position) :=
  match rings with
  | [] => []
  | r0 :: holes => oriented_exterior r0 :: map oriented_hole holes
  end.

Definition hole_changed (pts : list position) : bool := (0 <? shoelace_sum pts)%Z.

Definition polygon_changed (rings : list (list position)) : bool :=
  match rings with
  | [] => false
  | r0 :: holes => (shoelace_sum r0 <? 0)%Z || existsb hole_changed holes
  end.

(** A polygon with at least one ring, all rings in range. *)
Definition sound_polygon (rings : list (list position)) : Prop :=
  rings <> [] /\ Forall in_range rings.

(** A Polygon geometry with at least one ring, or a MultiPolygon geometry
    whose polygons have at least one ring each, all rings lists of integer
    positions with sums in range. *)
Inductive well_formed_geometry : json -> Prop :=
| wf_polygon (m : list (string * json)) (rings : list (list position)) :
    assoc "type" m = Some (JStr "Polygon") ->
    assoc "coordinates" m = Some (polygon_of rings) ->
    sound_polygon rings ->
    well_formed_geometry (JObj m)
| wf_multipolygon (m : list (string * json)) (polygons : list (list (list position))) :
    assoc "type" m = Some (JStr "MultiPolygon") ->
    assoc "coordinates" m = Some (multipolygon_of polygons) ->
    Forall sound_polygon polygons ->
    well_formed_geometry (JObj m).

(** ** Rings of numbers

    The same with any numbers for x and y: ints, floats, or both. *)

Definition nposition : Type := (number * number) * list json.

Definition nx (p : nposition) : number := fst (fst p).
Definition ny (p : nposition) : number := snd (fst p).























(** ** Concrete geometries *)

(** Scenario B of the specification: a clockwise exterior ring. *)
Definition at_xy (x y : Z) : position := ((x, y), []).

Definition clockwise_square : list position :=
  [at_xy 0 0; at_xy 0 1; at_xy 1 1; at_xy 1 0; at_xy 0 0].

Definition clockwise_polygon : json :=
  JObj [("type", JStr "Polygon"); ("coordinates", polygon_of [clockwise_square])].

(** A position of two floats. *)
Definition float_position (x y : float) : json :=
  JArr [JNum (NFloat x); JNum (NFloat y)].

(** A closed ring of four positions on the line [x = 1]: its area is zero,
    and the sum of [calculate_area] loses [1] when it is added to [2^53]. *)
Definition collinear_ring : list json :=
  [float_position 1 0; float_position 1 1; float_position 1 9007199254740992;
   float_position 1 0].

Definition collinear_polygon (ring : list json) : json :=
  JObj [("type", JStr "Polygon"); ("coordinates", JArr [JArr ring])].

(** ** Features and documents *)



(** The seven canonical kind names, as [upper] gives them. *)
Definition canonical_names : list string :=
  ["POINT"; "LINESTRING"; "POLYGON"; "MULTIPOINT"; "MULTILINESTRING";
   "MULTIPOLYGON"; "GEOMETRYCOLLECTION"].

(** [name] is one of the seven kind names, whatever its case. *)
Definition is_canonical (name : string) : bool :=
  existsb (String.eqb (upper name)) canonical_names.

Definition feature_of_kind (name : string) : json :=
  JObj [("type", JStr "Feature"); ("properties", JObj []);
        ("geometry", JObj [("type", JStr name)])].

Definition feature_with_geometry (geometry : json) : json :=
  JObj [("type", JStr "Feature"); ("properties", JObj []); ("geometry", geometry)].

Definition point_feature : json :=
  feature_with_geometry
    (JObj [("type", JStr "Point");
           ("coordinates", JArr [JNum (NInt 1); JNum (NInt 2)])]).

Definition record_of (fragment : json) : json := JObj [("property_geojson", fragment)].

Definition document_of (records : list json) : json := JObj [("data", JArr records)].

(** ** Extraction in closed form *)

(** The valid features [extract_features] finds in a node, before the limit
    is applied.  It reads the parser's [require_geometry] and
    [geometry_types] only. *)
Definition contribution (self : GeoJSONParser) (data : json) : result (list json) :=
  present <- py_in "property_geojson" data ;;
  if negb present then Ok []
  else
    geojson_data <- py_getkey data "property_geojson" ;;
    if negb (is_valid_geojson self geojson_data) then Ok []
    else
      ty <- py_getkey geojson_data "type" ;;
      if py_eq_str ty "Feature" then
        ok <- is_valid_feature self geojson_data ;;
        Ok (if ok then [geojson_data] else [])
      else if py_eq_str ty "FeatureCollection" then
        fs <- py_getkey geojson_data "features" ;;
        items <- py_iter fs ;;
        valid_features self items
      else Ok [].

(** The part of a contribution that fits under the limit. *)
Definition fitting (self : GeoJSONParser) (valid : list json) : list json :=
  match limit self with
  | Some n =>
      if (n =? 0)%Z then valid
      else py_slice_to valid (n - Z.of_nat (List.length (features self)))
  | None => valid
  end.

(** Two parsers with the same [require_geometry] and [geometry_types]. *)
Definition same_filter (a b : GeoJSONParser) : Prop :=
  require_geometry a = require_geometry b /\ geometry_types a = geometry_types b.

(** [is_valid_feature] returns [True]. *)
Definition accepted (self : GeoJSONParser) (f : json) : bool :=
  match is_valid_feature self f with
  | Ok true => true
  | _ => false
  end.

(** The features a node holds under 'property_geojson', in their order: the
    fragment itself when it is a Feature, the members of its 'features' list
    when it is a FeatureCollection. *)
Definition candidates (node : json) : list json :=
  match node with
  | JObj d =>
      match assoc "property_geojson" d with
      | Some (JObj g) =>
          match assoc "type" g with
          | Some ty =>
              if py_eq_str ty "Feature" then [JObj g]
              else if py_eq_str ty "FeatureCollection" then
                match assoc "features" g with
                | Some (JArr fs) => fs
                | _ => []
                end
              else []
          | None => []
          end
      | _ => []
      end
  | _ => []
  end.

(** The nodes [parse_file] hands to [extract_features], in their order. *)
Definition records (doc : json) : list json :=
  match doc with
  | JObj m =>
      match assoc "data" m with
      | Some d => match py_iter d with Ok items => items | Raise _ => [] end
      | None => [doc]
      end
  | _ => [doc]
  end.

Definition offered (doc : json) : list json := flat_map candidates (records doc).

(** The contributions of the nodes in their order, up to the first node on
    which extraction raises. *)
Fixpoint gathered (self : GeoJSONParser) (items : list json) : list json * option exn :=
  match items with
  | [] => ([], None)
  | item :: rest =>
      match contribution self item with
      | Raise e => ([], Some e)
      | Ok valid => let (more, err) := gathered self rest in (valid ++ more, err)
      end
  end.

(** The exception of iterating over the value of 'data', if it raises. *)
Definition iteration_error (doc : json) : option exn :=
  match doc with
  | JObj m =>
      match assoc "data" m with
      | Some d => match py_iter d with Ok _ => None | Raise e => Some e end
      | None => None
      end
  | _ => None
  end.

Definition gathered_document (self : GeoJSONParser) (doc : json)
  : list json * option exn :=
  match iteration_error doc with
  | Some e => ([], Some e)
  | None => gathered self (records doc)
  end.

(** [extract_features] with its exception caught, as [parse_file] runs it on
    a document. *)
Definition apply_extract (self : GeoJSONParser) (data : json)
  : GeoJSONParser * option exn :=
  match extract_features self data with
  | Ok self' => (self', None)
  | Raise e => (self, Some e)
  end.

(** The features the parser holds after [parse_file] on a loaded document,
    from a new parser. *)
Definition extracted (l : option Z) (rg : bool) (gt : GeometryTypes.t) (doc : json)
  : list json :=
  features (fst (parse_file (new_parser l rg gt) (Ok doc))).

Definition linestring_feature : json :=
  feature_with_geometry
    (JObj [("type", JStr "LineString");
           ("coordinates",
            JArr [JArr [JNum (NInt 0); JNum (NInt 0)];
                  JArr [JNum (NInt 1); JNum (NInt 1)]])]).

(** One turn of the loop of [parse_file] on the state the loop carries: the
    parser and the exception that ended the loop, if one did. *)
Definition visit (state : GeoJSONParser * option exn) (item : json)
  : GeoJSONParser * option exn :=
  match state with
  | (self, Some e) => (self, Some e)
  | (self, None) => if limit_reached self then (self, None) else apply_extract self item
  end.

(** A mapping whose 'data' is a number and that carries a fragment of its
    own: the document is not handed to extraction, the iteration raises. *)
Definition data_not_a_sequence : json :=
  JObj [("data", JNum (NInt 5)); ("property_geojson", point_feature)].

(** ** Definitions for further results *)

(** The geometry is a mapping whose 'type' is 'Polygon' or 'MultiPolygon'. *)
Definition is_polygonal (geometry : json) : bool :=
  match geometry with
  | JObj m =>
      match assoc "type" m with
      | Some ty => py_eq_str ty "Polygon" || py_eq_str ty "MultiPolygon"
      | None => false
      end
  | _ => false
  end.

(** The ring is as it was, or it is the list it was, reversed. *)
Definition same_or_reversed (ring ring' : json) : Prop :=
  ring' = ring \/ exists l, ring = JArr l /\ ring' = JArr (rev l).

(** A list of at most one item. *)
Definition short_ring (ring : json) : Prop :=
  exists l, ring = JArr l /\ (List.length l <= 1)%nat.

(** The position moved by [dx] and [dy]. *)
Definition translate (dx dy : Z) (p : position) : position :=
  ((px p + dx, py p + dy)%Z, snd p).

(** The last position of the ring has the x and y of the first. *)
Definition closed (pts : list position) : Prop :=
  match pts with
  | [] => True
  | p :: rest => fst (last rest p) = fst p
  end.

(** One turn of the orientation loop: whether the feature's geometry was
    changed, and the feature afterwards. *)
Definition fix_feature (feature : json) : result (bool * json) :=
  has <- py_in "geometry" feature ;;
  if has then
    g <- py_getkey feature "geometry" ;;
    if py_truthy g then
      g <- py_getkey feature "geometry" ;;
      '(changed, g') <- fix_geometry_orientation g ;;
      Ok (changed, with_geometry feature g')
    else Ok (false, feature)
  else Ok (false, feature).

(** A geometry the orientation loop can settle: a well-formed Polygon or
    MultiPolygon of integer positions, or a mapping of another kind. *)
Definition orientable_geometry (g : json) : Prop :=
  well_formed_geometry g \/ (exists m, g = JObj m /\ is_polygonal (JObj m) = false).

(** A feature that is a mapping, with no geometry, a falsy one or an
    orientable one. *)
Definition orientable_feature (f : json) : Prop :=
  exists fm,
    f = JObj fm
    /\ forall g, assoc "geometry" fm = Some g -> py_truthy g = true ->
                 orientable_geometry g.

(** A feature that is a mapping with a geometry on which
    [fix_geometry_orientation] raises. *)
Definition unfixable_feature (f : json) : Prop :=
  exists fm g e,
    f = JObj fm
    /\ assoc "geometry" fm = Some g
    /\ py_truthy g = true
    /\ fix_geometry_orientation g = Raise e.

(** A Polygon feature without rings. *)
Definition empty_polygon_feature : json :=
  feature_with_geometry (JObj [("type", JStr "Polygon"); ("coordinates", JArr [])]).

Definition polygon_feature (rings : list (list position)) : json :=
  feature_with_geometry
    (JObj [("type", JStr "Polygon"); ("coordinates", polygon_of rings)]).

(** The first two items of the position exist and are numbers. *)
Definition numeric_pair (p : json) : Prop :=
  exists x y nx ny,
    py_getitem p 0 = Ok x /\ py_getitem p 1 = Ok y
    /\ numeric x = Some nx /\ numeric y = Some ny.

(** * Results *)

(** ** Results on the association lists and on the monad *)

Lemma bind_inv {A B : Type} (m : result A) (k : A -> result B) (b : B) :
  bind m k = Ok b -> exists a, m = Ok a /\ k a = Ok b.
Proof.
  destruct m as [a | e]; simpl; intros H.
  - exists a; split; [reflexivity | exact H].
  - discriminate H.
Qed.

Lemma assoc_set_same (k : string) (v : json) (m : list (string * json)) :
  assoc k (assoc_set k v m) = match assoc k m with Some _ => Some v | None => None end.
Proof.
  induction m as [| [k' v'] m IH]; simpl; [reflexivity |].
  destruct (String.eqb k k') eqn:E; simpl; rewrite E; [reflexivity | exact IH].
Qed.

Lemma assoc_set_other (k k' : string) (v : json) (m : list (string * json)) :
  k <> k' -> assoc k (assoc_set k' v m) = assoc k m.
Proof.
  intros Hne.
  induction m as [| [k0 v0] m IH]; simpl; [reflexivity |].
  destruct (String.eqb k' k0) eqn:E; simpl.
  - apply String.eqb_eq in E; subst k0.
    destruct (String.eqb k k') eqn:E'; [| reflexivity].
    apply String.eqb_eq in E'; contradiction.
  - destruct (String.eqb k k0); [reflexivity | exact IH].
Qed.

Lemma assoc_set_twice (k : string) (v w : json) (m : list (string * json)) :
  assoc_set k w (assoc_set k v m) = assoc_set k w m.
Proof.
  induction m as [| [k' v'] m IH]; simpl; [reflexivity |].
  destruct (String.eqb k k') eqn:E; simpl; rewrite E; [reflexivity |].
  rewrite IH; reflexivity.
Qed.

(** ** The signed area of a ring of integer positions *)

Lemma nth_error_map_app (pre rest : list position) (a : position) :
  nth_error (map coordinate (pre ++ a :: rest)) (List.length pre) = Some (coordinate a).
Proof.
  induction pre as [| p pre IH]; simpl; [reflexivity | exact IH].
Qed.

Lemma area_loop_ring (l pre : list position) (acc : Z) :
  area_loop (ring_of (pre ++ l)) (List.length pre) (List.length l - 1) (NInt acc)
  = Ok (NInt (area_acc l acc)).
Proof.
  revert pre acc.
  induction l as [| a rest IH]; intros pre acc; [reflexivity |].
  destruct rest as [| b r]; [reflexivity |].
  replace (List.length (a :: b :: r) - 1)%nat with (S (List.length r))
    by (cbn [List.length]; lia).
  cbn [area_loop].
  assert (Ha : py_getitem (ring_of (pre ++ a :: b :: r)) (List.length pre)
               = Ok (coordinate a)).
  { unfold ring_of, py_getitem; rewrite nth_error_map_app; reflexivity. }
  assert (Hb : py_getitem (ring_of (pre ++ a :: b :: r)) (List.length pre + 1)
               = Ok (coordinate b)).
  { replace (pre ++ a :: b :: r) with ((pre ++ [a]) ++ b :: r)
      by (rewrite <- app_assoc; reflexivity).
    replace (List.length pre + 1)%nat with (List.length (pre ++ [a]))
      by (rewrite length_app; reflexivity).
    unfold ring_of, py_getitem; rewrite nth_error_map_app; reflexivity. }
  rewrite Ha, Hb.
  cbn [bind coordinate py_getitem nth_error py_mul numeric num_mul num_add num_sub arith].
  specialize (IH (pre ++ [a]) (acc + px a * py b - px b * py a)%Z).
  rewrite <- app_assoc in IH; cbn [app] in IH.
  rewrite length_app in IH; cbn [List.length] in IH.
  rewrite Nat.add_1_r in IH.
  replace (S (List.length r) - 1)%nat with (List.length r) in IH by lia.
  rewrite IH; reflexivity.
Qed.

Lemma area_acc_cross_sum (pts : list position) (acc : Z) :
  area_acc pts acc = (acc + cross_sum pts)%Z.
Proof.
  revert acc.
  induction pts as [| a rest IH]; intros acc; cbn [area_acc cross_sum]; [lia |].
  destruct rest as [| b r]; [lia |].
  rewrite IH; unfold cross; lia.
Qed.

Lemma shoelace_term_cons (a : position) (rest : list position) (i : nat) :
  shoelace_term (a :: rest) (S i) = shoelace_term rest i.
Proof. reflexivity. Qed.

Lemma shoelace_sum_cross_sum (pts : list position) :
  shoelace_sum pts = cross_sum pts.
Proof.
  unfold shoelace_sum.
  induction pts as [| a rest IH]; [reflexivity |].
  destruct rest as [| b r]; [reflexivity |].
  replace (List.length (a :: b :: r) - 1)%nat with (S (List.length r))
    by (cbn [List.length]; lia).
  replace (List.length (b :: r) - 1)%nat with (List.length r) in IH
    by (cbn [List.length]; lia).
  cbn [seq map fold_right].
  rewrite <- seq_shift, map_map.
  rewrite (map_ext _ (shoelace_term (b :: r)) (shoelace_term_cons a (b :: r))).
  rewrite IH.
  cbn [cross_sum]; unfold shoelace_term, cross; cbn [nth Nat.add]; reflexivity.
Qed.

(** On integer positions [calculate_area] accumulates the sum of the
    specification, exactly. *)
Lemma calculate_area_ring (pts : list position) :
  calculate_area (ring_of pts) = halve (NInt (shoelace_sum pts)).
Proof.
  unfold calculate_area.
  assert (H : py_len (ring_of pts) = Ok (List.length pts))
    by (cbn; rewrite length_map; reflexivity).
  rewrite H; cbn [bind].
  pose proof (area_loop_ring pts [] 0%Z) as L.
  cbn [app List.length] in L.
  rewrite L; cbn [bind].
  rewrite area_acc_cross_sum, shoelace_sum_cross_sum; reflexivity.
Qed.

Lemma calculate_area_in_range (pts : list position) :
  in_range pts -> calculate_area (ring_of pts) = Ok (HalfInt (shoelace_sum pts)).
Proof.
  intros H; rewrite calculate_area_ring; unfold halve.
  destruct (Z.leb_spec half_overflow (Z.abs (shoelace_sum pts))); [| reflexivity].
  unfold in_range in H; lia.
Qed.

Lemma cross_sum_snoc (l : list position) (b a : position) :
  cross_sum (l ++ [b; a]) = (cross_sum (l ++ [b]) + cross b a)%Z.
Proof.
  induction l as [| x l IH]; [cbn; lia |].
  destruct l as [| y l'].
  - cbn; lia.
  - change (cross_sum ((x :: y :: l') ++ [b; a]))
      with (cross x y + cross_sum ((y :: l') ++ [b; a]))%Z.
    change (cross_sum ((x :: y :: l') ++ [b]))
      with (cross x y + cross_sum ((y :: l') ++ [b]))%Z.
    rewrite IH; lia.
Qed.

Lemma cross_sum_rev (pts : list position) :
  cross_sum (rev pts) = (- cross_sum pts)%Z.
Proof.
  induction pts as [| a rest IH]; [reflexivity |].
  destruct rest as [| b r]; [reflexivity |].
  change (rev (a :: b :: r)) with ((rev r ++ [b]) ++ [a]).
  rewrite <- app_assoc; cbn [app].
  rewrite cross_sum_snoc.
  change (rev r ++ [b]) with (rev (b :: r)).
  rewrite IH.
  change (cross_sum (a :: b :: r)) with (cross a b + cross_sum (b :: r))%Z.
  unfold cross; lia.
Qed.

(** Reversing a ring negates its sum, hence its signed area. *)
Lemma shoelace_sum_rev (pts : list position) :
  shoelace_sum (rev pts) = (- shoelace_sum pts)%Z.
Proof. rewrite !shoelace_sum_cross_sum; apply cross_sum_rev. Qed.





Lemma in_range_rev (pts : list position) : in_range pts -> in_range (rev pts).
Proof. unfold in_range; rewrite shoelace_sum_rev; lia. Qed.

Lemma oriented_exterior_sum (pts : list position) :
  (0 <= shoelace_sum (oriented_exterior pts))%Z.
Proof.
  unfold oriented_exterior.
  destruct (Z.ltb_spec (shoelace_sum pts) 0); [rewrite shoelace_sum_rev |]; lia.
Qed.

Lemma oriented_hole_sum (pts : list position) :
  (shoelace_sum (oriented_hole pts) <= 0)%Z.
Proof.
  unfold oriented_hole.
  destruct (Z.ltb_spec 0 (shoelace_sum pts)); [rewrite shoelace_sum_rev |]; lia.
Qed.

Lemma oriented_exterior_in_range (pts : list position) :
  in_range pts -> in_range (oriented_exterior pts).
Proof.
  unfold oriented_exterior; destruct (_ <? _)%Z; [apply in_range_rev | trivial].
Qed.

Lemma oriented_hole_in_range (pts : list position) :
  in_range pts -> in_range (oriented_hole pts).
Proof.
  unfold oriented_hole; destruct (_ <? _)%Z; [apply in_range_rev | trivial].
Qed.

(** ** [fix_polygon_orientation] on rings of integer positions *)

Lemma reverse_ring_of (pts : list position) :
  reverse_ring (ring_of pts) = Ok (ring_of (rev pts)).
Proof. unfold reverse_ring, ring_of; rewrite map_rev; reflexivity. Qed.

Lemma fix_holes_rings (holes : list (list position)) :
  Forall in_range holes ->
  fix_holes (map ring_of holes)
  = Ok (existsb hole_changed holes, map ring_of (map oriented_hole holes)).
Proof.
  induction 1 as [| h holes Hh _ IH]; [reflexivity |].
  cbn [map fix_holes].
  rewrite (calculate_area_in_range h Hh); cbn [bind is_positive].
  rewrite IH; unfold oriented_hole, hole_changed; cbn [existsb].
  destruct (0 <? shoelace_sum h)%Z.
  - rewrite reverse_ring_of; reflexivity.
  - reflexivity.
Qed.

Lemma fix_polygon_rings (r0 : list position) (holes : list (list position)) :
  Forall in_range (r0 :: holes) ->
  fix_polygon_orientation (polygon_of (r0 :: holes))
  = Ok (polygon_changed (r0 :: holes), polygon_of (oriented_polygon (r0 :: holes))).
Proof.
  intros H; inversion H as [| ? ? H0 Hholes]; subst.
  unfold fix_polygon_orientation, polygon_of.
  cbn [map py_getitem nth_error bind py_slice_from1 tl].
  rewrite (calculate_area_in_range r0 H0); cbn [bind is_negative].
  unfold oriented_polygon, oriented_exterior, polygon_changed.
  destruct (shoelace_sum r0 <? 0)%Z.
  - rewrite reverse_ring_of; cbn [bind]; rewrite (fix_holes_rings holes Hholes).
    reflexivity.
  - cbn [bind]; rewrite (fix_holes_rings holes Hholes); reflexivity.
Qed.

Lemma oriented_hole_unchanged (pts : list position) :
  hole_changed (oriented_hole pts) = false.
Proof. apply Z.ltb_ge, oriented_hole_sum. Qed.

Lemma oriented_exterior_unchanged (pts : list position) :
  (shoelace_sum (oriented_exterior pts) <? 0)%Z = false.
Proof. apply Z.ltb_ge, oriented_exterior_sum. Qed.

Lemma oriented_polygon_unchanged (rings : list (list position)) :
  polygon_changed (oriented_polygon rings) = false.
Proof.
  destruct rings as [| r0 holes]; [reflexivity |].
  cbn [oriented_polygon polygon_changed].
  rewrite oriented_exterior_unchanged; cbn [orb].
  induction holes as [| h holes IH]; [reflexivity |].
  cbn [map existsb]; rewrite oriented_hole_unchanged; exact IH.
Qed.

Lemma oriented_polygon_idem (rings : list (list position)) :
  oriented_polygon (oriented_polygon rings) = oriented_polygon rings.
Proof.
  destruct rings as [| r0 holes]; [reflexivity |].
  cbn [oriented_polygon]; f_equal.
  - unfold oriented_exterior at 1.
    rewrite oriented_exterior_unchanged; reflexivity.
  - rewrite map_map; apply map_ext; intros h.
    unfold oriented_hole at 1.
    fold (hole_changed (oriented_hole h)).
    rewrite oriented_hole_unchanged; reflexivity.
Qed.

Lemma oriented_polygon_nonempty (rings : list (list position)) :
  rings <> [] -> oriented_polygon rings <> [].
Proof. destruct rings; [congruence | discriminate]. Qed.

Lemma oriented_polygon_in_range (rings : list (list position)) :
  Forall in_range rings -> Forall in_range (oriented_polygon rings).
Proof.
  destruct 1 as [| r0 holes H0 Hholes]; [constructor |].
  cbn [oriented_polygon]; constructor; [exact (oriented_exterior_in_range r0 H0) |].
  apply Forall_map; eapply Forall_impl; [| exact Hholes].
  exact oriented_hole_in_range.
Qed.

Lemma oriented_polygon_sound (rings : list (list position)) :
  sound_polygon rings -> sound_polygon (oriented_polygon rings).
Proof.
  intros [Hne Hr]; split;
    [exact (oriented_polygon_nonempty rings Hne) | exact (oriented_polygon_in_range rings Hr)].
Qed.

Lemma fix_polygons_rings (polygons : list (list (list position))) :
  Forall sound_polygon polygons ->
  fix_polygons (map polygon_of polygons)
  = Ok (existsb polygon_changed polygons,
        map polygon_of (map oriented_polygon polygons)).
Proof.
  induction 1 as [| rings polygons [Hne Hr] _ IH]; [reflexivity |].
  destruct rings as [| r0 holes]; [congruence |].
  cbn [map fix_polygons].
  rewrite (fix_polygon_rings r0 holes Hr); cbn [bind]; rewrite IH; reflexivity.
Qed.

(** ** [fix_polygon_orientation] on rings of numbers *)





















(** ** [fix_geometry_orientation] on well-formed geometries *)

Lemma assoc_Some_truthy (k : string) (v : json) (m : list (string * json)) :
  assoc k m = Some v -> py_truthy (JObj m) = true.
Proof. destruct m; [discriminate | reflexivity]. Qed.

Lemma fix_geometry_polygon (m : list (string * json)) (rings : list (list position)) :
  assoc "type" m = Some (JStr "Polygon") ->
  assoc "coordinates" m = Some (polygon_of rings) ->
  sound_polygon rings ->
  fix_geometry_orientation (JObj m)
  = Ok (polygon_changed rings,
        JObj (assoc_set "coordinates" (polygon_of (oriented_polygon rings)) m)).
Proof.
  intros Hty Hco [Hne Hr].
  destruct rings as [| r0 holes]; [congruence |].
  unfold fix_geometry_orientation.
  rewrite (assoc_Some_truthy _ _ _ Hty).
  cbn [negb py_in py_getkey bind]; rewrite Hty, Hco.
  cbn [negb bind]; change (py_eq_str (JStr "Polygon") "Polygon") with true; cbv iota.
  rewrite (fix_polygon_rings r0 holes Hr); reflexivity.
Qed.

Lemma fix_geometry_multipolygon
  (m : list (string * json)) (polygons : list (list (list position))) :
  assoc "type" m = Some (JStr "MultiPolygon") ->
  assoc "coordinates" m = Some (multipolygon_of polygons) ->
  Forall sound_polygon polygons ->
  fix_geometry_orientation (JObj m)
  = Ok (existsb polygon_changed polygons,
        JObj (assoc_set "coordinates"
                (multipolygon_of (map oriented_polygon polygons)) m)).
Proof.
  intros Hty Hco Hne.
  unfold fix_geometry_orientation.
  rewrite (assoc_Some_truthy _ _ _ Hty).
  cbn [negb py_in py_getkey bind]; rewrite Hty, Hco.
  cbn [negb bind].
  change (py_eq_str (JStr "MultiPolygon") "Polygon") with false.
  change (py_eq_str (JStr "MultiPolygon") "MultiPolygon") with true.
  cbv iota.
  unfold multipolygon_of at 1; cbn [py_iter bind].
  rewrite (fix_polygons_rings polygons Hne); reflexivity.
Qed.

Lemma existsb_oriented_polygons (polygons : list (list (list position))) :
  existsb polygon_changed (map oriented_polygon polygons) = false.
Proof.
  induction polygons as [| p polygons IH]; [reflexivity |].
  cbn [map existsb]; rewrite oriented_polygon_unchanged; exact IH.
Qed.

(** C2, as the code has it.  On a well-formed Polygon or MultiPolygon
    geometry of integer positions [fix_geometry_orientation] returns, and a
    second application to the geometry it leaves returns [False] and leaves
    the same geometry: the coordinates after two applications are those
    after one. *)
Theorem fix_geometry_orientation_idempotent (geometry : json) :
  well_formed_geometry geometry ->
  exists changed fixed,
    fix_geometry_orientation geometry = Ok (changed, fixed)
    /\ well_formed_geometry fixed
    /\ fix_geometry_orientation fixed = Ok (false, fixed).
Proof.
  intros [m rings Hty Hco Hne | m polygons Hty Hco Hne].
  - exists (polygon_changed rings),
      (JObj (assoc_set "coordinates" (polygon_of (oriented_polygon rings)) m)).
    assert (Hty' : assoc "type"
                     (assoc_set "coordinates" (polygon_of (oriented_polygon rings)) m)
                   = Some (JStr "Polygon"))
      by (rewrite assoc_set_other; [exact Hty | discriminate]).
    assert (Hco' : assoc "coordinates"
                     (assoc_set "coordinates" (polygon_of (oriented_polygon rings)) m)
                   = Some (polygon_of (oriented_polygon rings)))
      by (rewrite assoc_set_same, Hco; reflexivity).
    pose proof (oriented_polygon_sound rings Hne) as Hne'.
    split; [exact (fix_geometry_polygon m rings Hty Hco Hne) |].
    split; [exact (wf_polygon _ _ Hty' Hco' Hne') |].
    rewrite (fix_geometry_polygon _ _ Hty' Hco' Hne').
    rewrite oriented_polygon_unchanged, oriented_polygon_idem, assoc_set_twice.
    reflexivity.
  - set (fixed := multipolygon_of (map oriented_polygon polygons)).
    exists (existsb polygon_changed polygons), (JObj (assoc_set "coordinates" fixed m)).
    assert (Hty' : assoc "type" (assoc_set "coordinates" fixed m)
                   = Some (JStr "MultiPolygon"))
      by (rewrite assoc_set_other; [exact Hty | discriminate]).
    assert (Hco' : assoc "coordinates" (assoc_set "coordinates" fixed m) = Some fixed)
      by (rewrite assoc_set_same, Hco; reflexivity).
    assert (Hne' : Forall sound_polygon (map oriented_polygon polygons)).
    { apply Forall_map.
      eapply Forall_impl; [| exact Hne].
      exact oriented_polygon_sound. }
    split; [exact (fix_geometry_multipolygon m polygons Hty Hco Hne) |].
    split; [exact (wf_multipolygon _ _ Hty' Hco' Hne') |].
    rewrite (fix_geometry_multipolygon _ _ Hty' Hco' Hne').
    rewrite existsb_oriented_polygons, map_map.
    rewrite (map_ext _ _ oriented_polygon_idem), assoc_set_twice.
    reflexivity.
Qed.

Example scenario_B :
  fix_geometry_orientation clockwise_polygon
  = Ok (true,
        JObj [("type", JStr "Polygon");
              ("coordinates",
               polygon_of [[at_xy 0 0; at_xy 1 0; at_xy 1 1; at_xy 0 1; at_xy 0 0]])]).
Proof. reflexivity. Qed.

Lemma clockwise_square_in_range : Forall in_range [clockwise_square].
Proof. repeat constructor. Qed.


Lemma fix_geometry_orientation_idempotent_witness :
  exists changed fixed,
    fix_geometry_orientation clockwise_polygon = Ok (changed, fixed)
    /\ well_formed_geometry fixed
    /\ fix_geometry_orientation fixed = Ok (false, fixed).
Proof.
  apply fix_geometry_orientation_idempotent.
  apply (wf_polygon _ [clockwise_square]); [reflexivity | reflexivity |].
  split; [discriminate | exact clockwise_square_in_range].
Defined.

(** ** Rings of floats: rounding *)


(** Each application reverses the ring again: the second one reports a
    change and undoes the first. *)
Lemma collinear_polygon_oscillates :
  fix_geometry_orientation (collinear_polygon collinear_ring)
  = Ok (true, collinear_polygon (rev collinear_ring))
  /\ fix_geometry_orientation (collinear_polygon (rev collinear_ring))
     = Ok (true, collinear_polygon collinear_ring).
Proof. repeat split. Qed.

(** ** The unguarded access to ring 0 *)

Lemma fix_polygon_orientation_ring0 (coordinates : json) (r : bool * json) :
  fix_polygon_orientation coordinates = Ok r ->
  exists ring0, py_getitem coordinates 0 = Ok ring0.
Proof.
  unfold fix_polygon_orientation; intros H.
  apply bind_inv in H; destruct H as [ring0 [H0 _]].
  exists ring0; exact H0.
Qed.

Lemma fix_polygons_ring0 (polygons : list json) (r : bool * list json) :
  fix_polygons polygons = Ok r ->
  Forall (fun polygon => exists ring0, py_getitem polygon 0 = Ok ring0) polygons.
Proof.
  revert r; induction polygons as [| p polygons IH]; intros r H; [constructor |].
  cbn [fix_polygons] in H.
  apply bind_inv in H; destruct H as [[c p'] [Hp H]].
  apply bind_inv in H; destruct H as [[c' rest'] [Hrest _]].
  constructor.
  - exact (fix_polygon_orientation_ring0 _ _ Hp).
  - exact (IH _ Hrest).
Qed.

Lemma fix_polygons_empty_polygon (polygons : list json) :
  In (JArr []) polygons -> exists e, fix_polygons polygons = Raise e.
Proof.
  intros Hin.
  destruct (fix_polygons polygons) as [r | e] eqn:E; [| exists e; reflexivity].
  apply fix_polygons_ring0 in E.
  rewrite Forall_forall in E.
  destruct (E _ Hin) as [ring0 H0]; discriminate H0.
Qed.

Lemma fix_geometry_typed (m : list (string * json)) (ty : json) :
  assoc "type" m = Some ty ->
  fix_geometry_orientation (JObj m)
  = if py_eq_str ty "Polygon" then
      coordinates <- py_getkey (JObj m) "coordinates" ;;
      '(changed, coordinates') <- fix_polygon_orientation coordinates ;;
      Ok (changed, with_coordinates (JObj m) coordinates')
    else if py_eq_str ty "MultiPolygon" then
      coordinates <- py_getkey (JObj m) "coordinates" ;;
      polygons <- py_iter coordinates ;;
      '(changed, polygons') <- fix_polygons polygons ;;
      Ok (changed,
          with_coordinates (JObj m)
            (match coordinates with
             | JArr _ => JArr polygons'
             | _ => coordinates
             end))
    else Ok (false, JObj m).
Proof.
  intros Hty.
  unfold fix_geometry_orientation.
  rewrite (assoc_Some_truthy _ _ _ Hty).
  cbn [negb py_in py_getkey bind]; rewrite Hty; reflexivity.
Qed.

(** C9.  [fix_geometry_orientation] reads ring 0 of a polygon without a guard.
    On a geometry of type 'Polygon' it raises [KeyError] when the
    'coordinates' key is absent and [IndexError] when its value is the empty
    list, where a no-op returning [False] would be the alternative; it returns
    only when 'coordinates' is present and has an item 0.  On a
    'MultiPolygon' it raises as soon as one of the polygons is the empty
    list, and returns only when every polygon has an item 0. *)
Theorem fix_geometry_orientation_ring0_unguarded :
  (forall m, assoc "type" m = Some (JStr "Polygon") ->
     assoc "coordinates" m = None ->
     fix_geometry_orientation (JObj m) = Raise KeyError)
  /\ (forall m, assoc "type" m = Some (JStr "Polygon") ->
        assoc "coordinates" m = Some (JArr []) ->
        fix_geometry_orientation (JObj m) = Raise IndexError)
  /\ (forall m r, assoc "type" m = Some (JStr "Polygon") ->
        fix_geometry_orientation (JObj m) = Ok r ->
        exists coordinates ring0,
          assoc "coordinates" m = Some coordinates
          /\ py_getitem coordinates 0 = Ok ring0)
  /\ (forall m polygons, assoc "type" m = Some (JStr "MultiPolygon") ->
        assoc "coordinates" m = Some (JArr polygons) ->
        In (JArr []) polygons ->
        exists e, fix_geometry_orientation (JObj m) = Raise e)
  /\ (forall m r, assoc "type" m = Some (JStr "MultiPolygon") ->
        fix_geometry_orientation (JObj m) = Ok r ->
        exists coordinates polygons,
          assoc "coordinates" m = Some coordinates
          /\ py_iter coordinates = Ok polygons
          /\ Forall (fun polygon => exists ring0, py_getitem polygon 0 = Ok ring0)
               polygons).
Proof.
  repeat split.
  - intros m Hty Hco.
    rewrite (fix_geometry_typed m _ Hty); cbn; rewrite Hco; reflexivity.
  - intros m Hty Hco.
    rewrite (fix_geometry_typed m _ Hty); cbn; rewrite Hco; reflexivity.
  - intros m r Hty H.
    rewrite (fix_geometry_typed m _ Hty) in H.
    change (py_eq_str (JStr "Polygon") "Polygon") with true in H; cbv iota in H.
    apply bind_inv in H; destruct H as [c [Hc H]].
    apply bind_inv in H; destruct H as [r' [Hr _]].
    cbn [py_getkey] in Hc.
    destruct (assoc "coordinates" m) as [c0 |]; [| discriminate Hc].
    injection Hc as ->.
    destruct (fix_polygon_orientation_ring0 _ _ Hr) as [ring0 H0].
    exists c, ring0; split; [reflexivity | exact H0].
  - intros m polygons Hty Hco Hin.
    rewrite (fix_geometry_typed m _ Hty).
    change (py_eq_str (JStr "MultiPolygon") "Polygon") with false.
    change (py_eq_str (JStr "MultiPolygon") "MultiPolygon") with true.
    cbv iota; cbn [py_getkey]; rewrite Hco; cbn [bind py_iter].
    destruct (fix_polygons_empty_polygon polygons Hin) as [e He].
    exists e; rewrite He; reflexivity.
  - intros m r Hty H.
    rewrite (fix_geometry_typed m _ Hty) in H.
    change (py_eq_str (JStr "MultiPolygon") "Polygon") with false in H.
    change (py_eq_str (JStr "MultiPolygon") "MultiPolygon") with true in H.
    cbv iota in H.
    apply bind_inv in H; destruct H as [c [Hc H]].
    apply bind_inv in H; destruct H as [polygons [Hit H]].
    apply bind_inv in H; destruct H as [r' [Hr _]].
    cbn [py_getkey] in Hc.
    destruct (assoc "coordinates" m) as [c0 |]; [| discriminate Hc].
    injection Hc as ->.
    exists c, polygons; split; [reflexivity |].
    split; [exact Hit | exact (fix_polygons_ring0 _ _ Hr)].
Qed.

Lemma fix_geometry_orientation_ring0_unguarded_witness :
  fix_geometry_orientation (JObj [("type", JStr "Polygon")]) = Raise KeyError
  /\ fix_geometry_orientation
       (JObj [("type", JStr "Polygon"); ("coordinates", JArr [])])
     = Raise IndexError
  /\ exists e,
       fix_geometry_orientation
         (JObj [("type", JStr "MultiPolygon");
                ("coordinates", JArr [polygon_of [clockwise_square]; JArr []])])
       = Raise e.
Proof.
  destruct fix_geometry_orientation_ring0_unguarded as [Hk [Hi [_ [Hm _]]]].
  split; [apply Hk; reflexivity |].
  split; [apply Hi; reflexivity |].
  apply (Hm _ [polygon_of [clockwise_square]; JArr []]);
    [reflexivity | reflexivity | right; left; reflexivity].
Defined.

(** ** Feature validation *)




Lemma limit_reached_false_room (self : GeoJSONParser) :
  limit_reached self = false ->
  negb (limit_truthy self)
  || (Z.of_nat (List.length (features self))
      <? match limit self with Some n => n | None => 0 end)%Z = true.
Proof.
  unfold limit_reached, limit_truthy.
  destruct (limit self) as [n |]; [| reflexivity].
  destruct (n =? 0)%Z; cbn [negb andb orb]; [reflexivity |].
  intros H; apply Z.leb_gt in H; apply Z.ltb_lt; exact H.
Qed.



(** An accepted feature that has a geometry: the flag of its type name
    intersects the configured set. *)
Lemma accepted_flag_intersects (self : GeoJSONParser) (m : list (string * json)) :
  is_valid_feature self (JObj m) = Ok true ->
  has_geometry m = true ->
  exists geometry ty name,
    assoc "geometry" m = Some geometry
    /\ py_getkey geometry "type" = Ok ty
    /\ py_upper ty = Ok name
    /\ GeometryTypes.intersects (geometry_types self) (GeometryTypes.getattr name) = true.
Proof.
  intros H Hge.
  unfold is_valid_feature in H; rewrite Hge in H.
  destruct (negb (has_key "type" m)); [discriminate H |].
  cbn [negb andb] in H; rewrite andb_false_r in H.
  destruct (negb (has_key "properties" m) || false); [discriminate H |].
  apply bind_inv in H; destruct H as [g [Hg H]].
  apply bind_inv in H; destruct H as [ty [Hty H]].
  apply bind_inv in H; destruct H as [name [Hname H]].
  cbn [py_getkey] in Hg.
  destruct (assoc "geometry" m) as [g0 |]; [| discriminate Hg].
  injection Hg as ->; injection H as H.
  exists g, ty, name; repeat split; assumption.
Qed.

(** A type name that is neither one of the seven nor ALL has the empty flag. *)
Lemma getattr_unknown (name : string) :
  is_canonical name = false ->
  upper name <> "ALL" ->
  GeometryTypes.getattr (upper name) = GeometryTypes.NONE.
Proof.
  unfold is_canonical, canonical_names; cbn [existsb]; intros H Hall.
  repeat (apply orb_false_elim in H; destruct H as [? H]).
  unfold GeometryTypes.getattr.
  repeat match goal with
         | E : String.eqb (upper name) ?k = false |- _ => rewrite E; clear E
         end.
  destruct (String.eqb (upper name) "NONE"); [reflexivity |].
  destruct (String.eqb (upper name) "ALL") eqn:E; [| reflexivity].
  apply String.eqb_eq in E; contradiction.
Qed.

Lemma intersects_NONE (flags : GeometryTypes.t) :
  GeometryTypes.intersects flags GeometryTypes.NONE = false.
Proof.
  unfold GeometryTypes.intersects, GeometryTypes.NONE.
  rewrite Z.land_0_r; reflexivity.
Qed.

(** Such a name is rejected, whatever the configured set, when the feature
    has its keys. *)
Lemma unknown_kind_rejected
  (self : GeoJSONParser) (m g : list (string * json)) (name : string) :
  has_key "type" m = true ->
  assoc "geometry" m = Some (JObj g) ->
  assoc "type" g = Some (JStr name) ->
  is_canonical name = false ->
  upper name <> "ALL" ->
  is_valid_feature self (JObj m) = Ok false.
Proof.
  intros Hty Hg Hgt Hcan Hall.
  unfold is_valid_feature; rewrite Hty; cbn [negb].
  assert (Hge : has_geometry m = true) by (unfold has_geometry; rewrite Hg; reflexivity).
  rewrite Hge; cbn [negb andb]; rewrite andb_false_r, orb_false_r.
  destruct (has_key "properties" m); cbn [negb]; [| reflexivity].
  cbn [py_getkey]; rewrite Hg; cbn [bind py_getkey]; rewrite Hgt; cbn [bind py_upper].
  rewrite (getattr_unknown name Hcan Hall), intersects_NONE; reflexivity.
Qed.

(** C3, at the failing input.  The type name "All" is none of the seven kind
    names, yet [getattr] finds the member ALL of the enumeration for it, and
    a parser configured for points only accepts the feature. *)
Theorem kind_name_all_is_accepted :
  is_canonical "All" = false
  /\ GeometryTypes.getattr (upper "All") = GeometryTypes.ALL
  /\ is_valid_feature (new_parser None true GeometryTypes.POINT) (feature_of_kind "All")
     = Ok true.
Proof. repeat split. Qed.

(** ** Malformed geometries *)

(** C8, at the failing inputs.  A geometry that is a mapping without 'type',
    a geometry that is not a mapping, and a geometry whose 'type' is not a
    string make [is_valid_feature] raise; [parse_file] catches the exception,
    prints it and leaves the loop, so the valid record that follows is never
    read. *)
Theorem malformed_geometry_raises :
  is_valid_feature (new_parser None true GeometryTypes.ALL)
    (feature_with_geometry (JObj [])) = Raise KeyError
  /\ is_valid_feature (new_parser None true GeometryTypes.ALL)
       (feature_with_geometry (JStr "Point")) = Raise TypeError
  /\ is_valid_feature (new_parser None true GeometryTypes.ALL)
       (feature_with_geometry (JObj [("type", JNum (NInt 1))])) = Raise AttributeError
  /\ parse_file (new_parser None true GeometryTypes.ALL)
       (Ok (document_of [record_of (feature_with_geometry (JObj []));
                         record_of point_feature]))
     = (new_parser None true GeometryTypes.ALL, [ErrorParsingFile KeyError])
  /\ parse_file (new_parser None true GeometryTypes.ALL)
       (Ok (document_of [record_of point_feature]))
     = (with_features (new_parser None true GeometryTypes.ALL) [point_feature], []).
Proof. repeat split. Qed.

(** ** Extraction: what a node contributes *)

Lemma with_features_same (self : GeoJSONParser) :
  with_features self (features self) = self.
Proof. destruct self; reflexivity. Qed.

Lemma with_features_nil (self : GeoJSONParser) :
  with_features self (features self ++ []) = self.
Proof. rewrite app_nil_r; apply with_features_same. Qed.

Lemma fitting_nil (self : GeoJSONParser) : fitting self [] = [].
Proof.
  unfold fitting, py_slice_to.
  destruct (limit self) as [n |]; [| reflexivity].
  destruct (n =? 0)%Z; [reflexivity |].
  destruct (0 <=? _)%Z; apply firstn_nil.
Qed.

Lemma fitting_single (self : GeoJSONParser) (f : json) :
  limit_reached self = false -> fitting self [f] = [f].
Proof.
  unfold limit_reached, fitting, py_slice_to.
  destruct (limit self) as [n |]; [| reflexivity].
  destruct (n =? 0)%Z; cbn [negb andb]; [reflexivity |].
  intros H; apply Z.leb_gt in H.
  destruct (0 <=? n - Z.of_nat (List.length (features self)))%Z eqn:E.
  - replace (Z.to_nat (n - Z.of_nat (List.length (features self))))
      with (S (Z.to_nat (n - Z.of_nat (List.length (features self)) - 1))) by lia.
    cbn [firstn]; rewrite firstn_nil; reflexivity.
  - apply Z.leb_gt in E; lia.
Qed.

(** [extract_features], when the limit is not reached, appends the fitting
    part of the node's contribution. *)
Lemma extract_features_contribution (self : GeoJSONParser) (data : json) :
  limit_reached self = false ->
  extract_features self data
  = (valid <- contribution self data ;;
     Ok (with_features self (features self ++ fitting self valid))).
Proof.
  intros Hlim.
  assert (Hnil : Ok self = Ok (with_features self (features self ++ fitting self [])))
    by (rewrite fitting_nil, with_features_nil; reflexivity).
  unfold extract_features, contribution; rewrite Hlim.
  destruct (py_in "property_geojson" data) as [present | e]; [| reflexivity].
  cbn [bind]; destruct present; cbn [negb bind]; [| exact Hnil].
  destruct (py_getkey data "property_geojson") as [g | e]; [| reflexivity].
  cbn [bind]; destruct (is_valid_geojson self g); cbn [negb bind]; [| exact Hnil].
  destruct (py_getkey g "type") as [ty | e]; [| reflexivity].
  cbn [bind]; destruct (py_eq_str ty "Feature").
  - destruct (is_valid_feature self g) as [ok | e]; [| reflexivity].
    cbn [bind]; destruct ok; [| exact Hnil].
    rewrite (limit_reached_false_room self Hlim), (fitting_single self g Hlim).
    reflexivity.
  - destruct (py_eq_str ty "FeatureCollection"); cbn [bind]; [| exact Hnil].
    destruct (py_getkey g "features") as [fs | e]; [| reflexivity].
    cbn [bind]; destruct (py_iter fs) as [items | e]; [| reflexivity].
    cbn [bind]; destruct (valid_features self items) as [valid | e]; [| reflexivity].
    cbn [bind]; unfold fitting, limit_truthy.
    destruct (limit self) as [n |]; [| reflexivity].
    destruct (n =? 0)%Z; reflexivity.
Qed.

(** [extract_features] is a no-op once the limit is reached. *)
Lemma extract_features_limit_reached (self : GeoJSONParser) (data : json) :
  limit_reached self = true -> extract_features self data = Ok self.
Proof. intros H; unfold extract_features; rewrite H; reflexivity. Qed.

Lemma is_valid_feature_same_filter (a b : GeoJSONParser) (f : json) :
  same_filter a b -> is_valid_feature a f = is_valid_feature b f.
Proof.
  intros [Hrg Hgt]; unfold is_valid_feature; rewrite Hrg, Hgt; reflexivity.
Qed.

Lemma is_valid_geojson_same_filter (a b : GeoJSONParser) (d : json) :
  same_filter a b -> is_valid_geojson a d = is_valid_geojson b d.
Proof.
  intros [Hrg _]; unfold is_valid_geojson; rewrite Hrg; reflexivity.
Qed.

Lemma valid_features_same_filter (a b : GeoJSONParser) (fs : list json) :
  same_filter a b -> valid_features a fs = valid_features b fs.
Proof.
  intros H; induction fs as [| f fs IH]; [reflexivity |].
  cbn [valid_features]; rewrite (is_valid_feature_same_filter a b f H), IH.
  reflexivity.
Qed.

Lemma contribution_same_filter (a b : GeoJSONParser) (d : json) :
  same_filter a b -> contribution a d = contribution b d.
Proof.
  intros H; unfold contribution.
  destruct (py_in "property_geojson" d) as [present | e]; [| reflexivity].
  cbn [bind]; destruct (negb present); [reflexivity |].
  destruct (py_getkey d "property_geojson") as [g | e]; [| reflexivity].
  cbn [bind]; rewrite (is_valid_geojson_same_filter a b g H).
  destruct (negb (is_valid_geojson b g)); [reflexivity |].
  destruct (py_getkey g "type") as [ty | e]; [| reflexivity].
  cbn [bind]; rewrite (is_valid_feature_same_filter a b g H).
  destruct (py_eq_str ty "Feature"); [reflexivity |].
  destruct (py_eq_str ty "FeatureCollection"); [| reflexivity].
  destruct (py_getkey g "features") as [fs | e]; [| reflexivity].
  cbn [bind]; destruct (py_iter fs) as [items | e]; [| reflexivity].
  cbn [bind]; apply valid_features_same_filter; exact H.
Qed.

Lemma same_filter_with_features (self : GeoJSONParser) (fs : list json) :
  same_filter (with_features self fs) self.
Proof. split; reflexivity. Qed.

(** ** The features a document offers *)

Lemma accepted_same_filter (a b : GeoJSONParser) (f : json) :
  same_filter a b -> accepted a f = accepted b f.
Proof.
  intros H; unfold accepted; rewrite (is_valid_feature_same_filter a b f H).
  reflexivity.
Qed.

Lemma valid_features_filter (self : GeoJSONParser) (fs valid : list json) :
  valid_features self fs = Ok valid -> valid = filter (accepted self) fs.
Proof.
  revert valid; induction fs as [| f fs IH]; intros valid H.
  - injection H as <-; reflexivity.
  - cbn [valid_features] in H.
    apply bind_inv in H; destruct H as [ok [Hok H]].
    apply bind_inv in H; destruct H as [rest [Hrest H]].
    injection H as <-.
    cbn [filter]; unfold accepted at 1; rewrite Hok, (IH rest Hrest).
    destruct ok; reflexivity.
Qed.

(** A Feature fragment that fails the envelope check is not an accepted
    feature either. *)
Lemma envelope_rejects (self : GeoJSONParser) (g : list (string * json)) (ty : json) :
  assoc "type" g = Some ty ->
  py_eq_str ty "Feature" = true ->
  is_valid_geojson self (JObj g) = false ->
  accepted self (JObj g) = false.
Proof.
  intros Hty Hfe H.
  unfold is_valid_geojson in H; rewrite Hty, Hfe in H.
  unfold accepted, is_valid_feature, has_key at 1; rewrite Hty; cbn [negb].
  destruct (has_key "properties" g); cbn [negb andb orb] in *; [| reflexivity].
  destruct (require_geometry self); cbn [negb andb orb] in *; [| discriminate H].
  rewrite H; reflexivity.
Qed.

Lemma contribution_candidates (self : GeoJSONParser) (data : json) (valid : list json) :
  contribution self data = Ok valid ->
  valid = filter (accepted self) (candidates data).
Proof.
  unfold contribution, candidates; intros H.
  destruct data as [| b | q | s | l | d]; try discriminate H.
  - (* a string: a match makes the subscript raise *)
    cbn [py_in bind py_getkey] in H.
    destruct (substringb "property_geojson" s); cbn [negb] in H;
      [discriminate H | injection H as <-; reflexivity].
  - (* a list: a match makes the subscript raise *)
    cbn [py_in bind py_getkey] in H.
    destruct (existsb _ l); cbn [negb] in H;
      [discriminate H | injection H as <-; reflexivity].
  - cbn [py_in bind py_getkey] in H.
    destruct (assoc "property_geojson" d) as [g |]; cbn [negb bind] in H;
      [| injection H as <-; reflexivity].
    destruct g as [| b | q | s | l | g];
      try (cbn [is_valid_geojson negb] in H; injection H as <-; reflexivity).
    destruct (assoc "type" g) as [ty |] eqn:Hty;
      [| unfold is_valid_geojson in H; rewrite Hty in H; cbn [negb] in H;
         injection H as <-; reflexivity].
    destruct (is_valid_geojson self (JObj g)) eqn:Hvalid; cbn [negb] in H.
    + cbn [py_getkey] in H; rewrite Hty in H; cbn [bind] in H.
      destruct (py_eq_str ty "Feature") eqn:Hfe.
      * apply bind_inv in H; destruct H as [ok [Hok H]].
        injection H as <-.
        cbn [filter]; unfold accepted; rewrite Hok; destruct ok; reflexivity.
      * unfold is_valid_geojson in Hvalid; rewrite Hty, Hfe in Hvalid.
        destruct (py_eq_str ty "FeatureCollection"); [| injection H as <-; reflexivity].
        cbn [py_getkey] in H.
        destruct (assoc "features" g) as [fs |]; [| discriminate Hvalid].
        destruct fs as [| b | q | s | fs | o]; try discriminate Hvalid.
        cbn [bind py_iter] in H.
        apply valid_features_filter; exact H.
    + injection H as <-.
      destruct (py_eq_str ty "Feature") eqn:Hfe.
      * cbn [filter]; rewrite (envelope_rejects self g ty Hty Hfe Hvalid); reflexivity.
      * unfold is_valid_geojson in Hvalid; rewrite Hty, Hfe in Hvalid.
        destruct (py_eq_str ty "FeatureCollection"); [| discriminate Hvalid].
        destruct (assoc "features" g) as [fs |]; [| reflexivity].
        destruct fs; try reflexivity; discriminate Hvalid.
Qed.

(** ** The loop of [parse_file] in closed form *)

Lemma gathered_same_filter (a b : GeoJSONParser) (items : list json) :
  same_filter a b -> gathered a items = gathered b items.
Proof.
  intros H; induction items as [| item rest IH]; [reflexivity |].
  cbn [gathered]; rewrite (contribution_same_filter a b item H), IH; reflexivity.
Qed.

Lemma limit_truthy_not_reached (self : GeoJSONParser) :
  limit_truthy self = false -> limit_reached self = false.
Proof.
  unfold limit_truthy, limit_reached.
  destruct (limit self) as [n |]; [| reflexivity].
  destruct (n =? 0)%Z; [reflexivity | discriminate].
Qed.

Lemma fitting_unlimited (self : GeoJSONParser) (valid : list json) :
  limit_truthy self = false -> fitting self valid = valid.
Proof.
  unfold limit_truthy, fitting.
  destruct (limit self) as [n |]; [| reflexivity].
  destruct (n =? 0)%Z; [reflexivity | discriminate].
Qed.

Lemma fitting_limited (self : GeoJSONParser) (valid : list json) (n : Z) :
  limit self = Some n -> (0 < n)%Z ->
  (Z.of_nat (List.length (features self)) <= n)%Z ->
  fitting self valid
  = firstn (Z.to_nat n - List.length (features self)) valid.
Proof.
  intros Hl Hn Hlen; unfold fitting, py_slice_to; rewrite Hl.
  destruct (Z.eqb_spec n 0) as [-> | _]; [lia |].
  destruct (Z.leb_spec 0 (n - Z.of_nat (List.length (features self)))); [| lia].
  f_equal; lia.
Qed.

Lemma parse_items_unlimited (items : list json) (self : GeoJSONParser) :
  limit_truthy self = false ->
  parse_items self items
  = (with_features self (features self ++ fst (gathered self items)),
     snd (gathered self items)).
Proof.
  revert self; induction items as [| item rest IH]; intros self Hlim.
  - cbn [parse_items gathered fst snd]; rewrite with_features_nil; reflexivity.
  - cbn [parse_items gathered].
    rewrite (limit_truthy_not_reached self Hlim).
    rewrite (extract_features_contribution self item (limit_truthy_not_reached self Hlim)).
    destruct (contribution self item) as [valid | e]; cbn [bind fst snd].
    + rewrite (fitting_unlimited self valid Hlim).
      rewrite (IH (with_features self (features self ++ valid)) Hlim).
      rewrite (gathered_same_filter _ self rest (same_filter_with_features self _)).
      destruct (gathered self rest) as [more err]; cbn [fst snd features with_features].
      rewrite <- app_assoc; reflexivity.
    + rewrite with_features_nil; reflexivity.
Qed.

Lemma firstn_app_firstn {A : Type} (k : nat) (c more : list A) :
  firstn k (firstn k c ++ more) = firstn k (c ++ more).
Proof.
  destruct (Nat.le_gt_cases k (List.length c)) as [Hle | Hgt].
  - rewrite !firstn_app, firstn_firstn, Nat.min_id.
    rewrite length_firstn, Nat.min_l by exact Hle.
    replace (k - k)%nat with 0%nat by lia.
    replace (k - List.length c)%nat with 0%nat by lia.
    reflexivity.
  - rewrite (firstn_all2 c) by lia; reflexivity.
Qed.

Lemma parse_items_limited (items : list json) (self : GeoJSONParser) (n : Z) :
  limit self = Some n -> (0 < n)%Z ->
  (Z.of_nat (List.length (features self)) <= n)%Z ->
  features (fst (parse_items self items))
  = firstn (Z.to_nat n) (features self ++ fst (gathered self items)).
Proof.
  revert self; induction items as [| item rest IH]; intros self Hl Hn Hlen.
  - cbn [parse_items gathered fst]; rewrite app_nil_r, firstn_all2; [reflexivity | lia].
  - cbn [parse_items gathered].
    destruct (limit_reached self) eqn:Hreach.
    + cbn [fst].
      unfold limit_reached in Hreach; rewrite Hl in Hreach.
      apply andb_prop in Hreach; destruct Hreach as [_ Hreach].
      apply Z.leb_le in Hreach.
      rewrite firstn_app.
      replace (Z.to_nat n - List.length (features self))%nat with 0%nat by lia.
      rewrite firstn_O, app_nil_r, firstn_all2; [reflexivity | lia].
    + assert (Hlt : (Z.of_nat (List.length (features self)) < n)%Z).
      { unfold limit_reached in Hreach; rewrite Hl in Hreach.
        destruct (Z.eqb_spec n 0); [lia |]; cbn [negb andb] in Hreach.
        apply Z.leb_gt in Hreach; exact Hreach. }
      rewrite (extract_features_contribution self item Hreach).
      destruct (contribution self item) as [valid | e]; cbn [bind fst].
      * rewrite (fitting_limited self valid n Hl Hn Hlen).
        set (k := (Z.to_nat n - List.length (features self))%nat).
        rewrite (IH (with_features self (features self ++ firstn k valid)) Hl Hn).
        -- rewrite (gathered_same_filter _ self rest (same_filter_with_features self _)).
           destruct (gathered self rest) as [more err]; cbn [fst features with_features].
           rewrite <- !app_assoc.
           rewrite (firstn_app _ (features self) (firstn k valid ++ more)).
           rewrite (firstn_app _ (features self) (valid ++ more)).
           fold k; rewrite firstn_app_firstn; reflexivity.
        -- cbn [features with_features]; rewrite length_app, length_firstn.
           unfold k; lia.
      * rewrite app_nil_r, firstn_all2; [reflexivity | lia].
Qed.

Lemma parse_items_negative (items : list json) (self : GeoJSONParser) (n : Z) :
  limit self = Some n -> (n < 0)%Z -> parse_items self items = (self, None).
Proof.
  intros Hl Hn; destruct items as [| item rest]; [reflexivity |].
  cbn [parse_items]; unfold limit_reached; rewrite Hl.
  destruct (Z.eqb_spec n 0); [lia |].
  destruct (Z.leb_spec n (Z.of_nat (List.length (features self)))); [reflexivity | lia].
Qed.

(** [parse_file] on a loaded document is the loop over its records. *)
Lemma parse_document_items (self : GeoJSONParser) (doc : json) :
  parse_document self doc
  = match iteration_error doc with
    | Some e => (self, Some e)
    | None => parse_items self (records doc)
    end.
Proof.
  assert (Hone : apply_extract self doc = parse_items self [doc]).
  { unfold apply_extract; cbn [parse_items].
    destruct (limit_reached self) eqn:Hreach.
    - rewrite (extract_features_limit_reached self doc Hreach); reflexivity.
    - destruct (extract_features self doc); reflexivity. }
  unfold parse_document, iteration_error, records.
  destruct doc as [| b | q | s | l | m]; try exact Hone.
  cbn [isinstance_dict andb has_key py_getkey].
  unfold has_key; destruct (assoc "data" m) as [d |]; [| exact Hone].
  cbn [bind]; destruct (py_iter d); reflexivity.
Qed.

Lemma gathered_prefix (self : GeoJSONParser) (items : list json) :
  exists rest,
    filter (accepted self) (flat_map candidates items)
    = fst (gathered self items) ++ rest
    /\ (snd (gathered self items) = None -> rest = []).
Proof.
  induction items as [| item items IH].
  - exists []; split; reflexivity.
  - cbn [flat_map gathered]; rewrite filter_app.
    destruct (contribution self item) as [valid | e] eqn:Hc.
    + destruct IH as [rest [Heq Hnone]].
      rewrite <- (contribution_candidates self item valid Hc), Heq.
      destruct (gathered self items) as [more err]; cbn [fst snd] in *.
      exists rest; split; [apply app_assoc | exact Hnone].
    + eexists; split; [reflexivity | discriminate].
Qed.

Lemma gathered_document_prefix (self : GeoJSONParser) (doc : json) :
  exists rest,
    filter (accepted self) (offered doc)
    = fst (gathered_document self doc) ++ rest
    /\ (snd (gathered_document self doc) = None -> rest = []).
Proof.
  unfold gathered_document, offered.
  destruct (iteration_error doc) as [e |].
  - eexists; split; [reflexivity | discriminate].
  - apply gathered_prefix.
Qed.

Lemma parse_document_unlimited (self : GeoJSONParser) (doc : json) :
  limit_truthy self = false ->
  parse_document self doc
  = (with_features self (features self ++ fst (gathered_document self doc)),
     snd (gathered_document self doc)).
Proof.
  intros Hlim; rewrite parse_document_items; unfold gathered_document.
  destruct (iteration_error doc) as [e |].
  - cbn [fst snd]; rewrite with_features_nil; reflexivity.
  - apply parse_items_unlimited; exact Hlim.
Qed.

Lemma parse_document_limited (self : GeoJSONParser) (doc : json) (n : Z) :
  limit self = Some n -> (0 < n)%Z ->
  (Z.of_nat (List.length (features self)) <= n)%Z ->
  features (fst (parse_document self doc))
  = firstn (Z.to_nat n) (features self ++ fst (gathered_document self doc)).
Proof.
  intros Hl Hn Hlen; rewrite parse_document_items; unfold gathered_document.
  destruct (iteration_error doc) as [e |].
  - cbn [fst]; rewrite app_nil_r, firstn_all2; [reflexivity | lia].
  - apply parse_items_limited; assumption.
Qed.

Lemma parse_document_negative (self : GeoJSONParser) (doc : json) (n : Z) :
  limit self = Some n -> (n < 0)%Z -> fst (parse_document self doc) = self.
Proof.
  intros Hl Hn; rewrite parse_document_items.
  destruct (iteration_error doc); [reflexivity |].
  rewrite (parse_items_negative _ self n Hl Hn); reflexivity.
Qed.

(** What [parse_file] leaves in the parser and whether it printed. *)
Lemma parse_file_document (self : GeoJSONParser) (doc : json) :
  fst (parse_file self (Ok doc)) = fst (parse_document self doc)
  /\ (snd (parse_file self (Ok doc)) = [] <-> snd (parse_document self doc) = None).
Proof.
  unfold parse_file.
  destruct (parse_document self doc) as [self' [e |]]; cbn [fst snd];
    (split; [reflexivity | split; discriminate || reflexivity]).
Qed.




(** ** The limit *)




(** ** Order *)

Lemma extracted_unlimited (l : option Z) (rg : bool) (gt : GeometryTypes.t) (doc : json) :
  limit_truthy (new_parser l rg gt) = false ->
  extracted l rg gt doc = fst (gathered_document (new_parser None rg gt) doc).
Proof.
  intros Hlim; unfold extracted.
  destruct (parse_file_document (new_parser l rg gt) doc) as [-> _].
  rewrite (parse_document_unlimited _ doc Hlim); cbn [fst features with_features new_parser].
  unfold gathered_document.
  rewrite (gathered_same_filter (new_parser l rg gt) (new_parser None rg gt));
    [reflexivity | split; reflexivity].
Qed.

Lemma extracted_limited (n : Z) (rg : bool) (gt : GeometryTypes.t) (doc : json) :
  (0 < n)%Z ->
  extracted (Some n) rg gt doc = firstn (Z.to_nat n) (extracted None rg gt doc).
Proof.
  intros Hn.
  rewrite (extracted_unlimited None rg gt doc eq_refl); unfold extracted.
  destruct (parse_file_document (new_parser (Some n) rg gt) doc) as [-> _].
  rewrite (parse_document_limited (new_parser (Some n) rg gt) doc n eq_refl Hn);
    [| cbn; lia].
  cbn [features new_parser app]; unfold gathered_document.
  rewrite (gathered_same_filter (new_parser (Some n) rg gt) (new_parser None rg gt));
    [reflexivity | split; reflexivity].
Qed.



(** ** The dispatch on the top-level document *)

Lemma visit_ended (items : list json) (self : GeoJSONParser) (e : exn) :
  fold_left visit items (self, Some e) = (self, Some e).
Proof. induction items as [| item items IH]; [reflexivity | exact IH]. Qed.

Lemma visit_limit_reached (items : list json) (self : GeoJSONParser) :
  limit_reached self = true -> fold_left visit items (self, None) = (self, None).
Proof.
  intros H; induction items as [| item items IH]; [reflexivity |].
  cbn [fold_left visit]; rewrite H; exact IH.
Qed.

(** The loop visits the records in their order; it does nothing more once
    the limit is reached or an exception has been raised. *)
Lemma parse_items_fold (items : list json) (self : GeoJSONParser) :
  parse_items self items = fold_left visit items (self, None).
Proof.
  revert self; induction items as [| item items IH]; intros self; [reflexivity |].
  cbn [parse_items fold_left visit].
  destruct (limit_reached self) eqn:Hreach.
  - rewrite (visit_limit_reached items self Hreach); reflexivity.
  - unfold apply_extract.
    destruct (extract_features self item) as [self' | e].
    + apply IH.
    + rewrite visit_ended; reflexivity.
Qed.

(** C5, as the code has it.  [parse_file] dispatches on the presence of the 'data' key
    alone.  On a mapping with a 'data' key it iterates over the value: when
    the value is a list, extraction is applied to each element in order, and
    to none once the limit is reached; when the value cannot be iterated the
    exception ends the parse.  On every document that is not a mapping with a
    'data' key, extraction is applied to the document itself. *)
Theorem parse_file_dispatch (self : GeoJSONParser) (doc : json) :
  (forall m d, doc = JObj m -> assoc "data" m = Some d ->
     parse_document self doc
     = match py_iter d with
       | Ok items => fold_left visit items (self, None)
       | Raise e => (self, Some e)
       end)
  /\ (forall m items, doc = JObj m -> assoc "data" m = Some (JArr items) ->
        parse_document self doc = fold_left visit items (self, None))
  /\ (forall items, limit_reached self = true ->
        fold_left visit items (self, None) = (self, None))
  /\ ((forall m, doc = JObj m -> assoc "data" m = None) ->
      parse_document self doc = apply_extract self doc).
Proof.
  assert (Hdata : forall m d, doc = JObj m -> assoc "data" m = Some d ->
            parse_document self doc
            = match py_iter d with
              | Ok items => fold_left visit items (self, None)
              | Raise e => (self, Some e)
              end).
  { intros m d -> Hd.
    unfold parse_document; cbn [isinstance_dict andb py_getkey].
    unfold has_key; rewrite Hd; cbn [bind].
    destruct (py_iter d) as [items | e]; [apply parse_items_fold | reflexivity]. }
  split; [exact Hdata |].
  split; [intros m items Hdoc Hd; exact (Hdata m (JArr items) Hdoc Hd) |].
  split; [intros items Hreach; exact (visit_limit_reached items self Hreach) |].
  intros Hno; unfold parse_document, apply_extract.
  destruct doc as [| b | q | s | l | m]; try reflexivity.
  cbn [isinstance_dict andb]; unfold has_key; rewrite (Hno m eq_refl); reflexivity.
Qed.

Lemma parse_file_dispatch_witness :
  parse_document (new_parser None true GeometryTypes.ALL)
    (document_of [record_of point_feature; record_of linestring_feature])
  = fold_left visit [record_of point_feature; record_of linestring_feature]
      (new_parser None true GeometryTypes.ALL, None)
  /\ parse_document (new_parser None true GeometryTypes.ALL) (record_of point_feature)
     = apply_extract (new_parser None true GeometryTypes.ALL) (record_of point_feature).
Proof.
  split.
  - destruct (parse_file_dispatch (new_parser None true GeometryTypes.ALL)
                (document_of [record_of point_feature; record_of linestring_feature]))
      as [_ [H _]].
    apply (H [("data", JArr [record_of point_feature; record_of linestring_feature])]);
      reflexivity.
  - destruct (parse_file_dispatch (new_parser None true GeometryTypes.ALL)
                (record_of point_feature)) as [_ [_ [_ H]]].
    apply H; intros m Hm; injection Hm as <-; reflexivity.
Defined.

Lemma data_not_a_sequence_not_extracted :
  parse_document (new_parser None true GeometryTypes.ALL) data_not_a_sequence
  = (new_parser None true GeometryTypes.ALL, Some TypeError)
  /\ apply_extract (new_parser None true GeometryTypes.ALL) data_not_a_sequence
     = (with_features (new_parser None true GeometryTypes.ALL) [point_feature], None)
  /\ parse_file (new_parser None true GeometryTypes.ALL) (Ok data_not_a_sequence)
     = (new_parser None true GeometryTypes.ALL, [ErrorParsingFile TypeError]).
Proof. repeat split. Qed.

(** ** Input that cannot be loaded *)

(** C7, as the code has it.  When [open] or [json.load] raise, [parse_file] catches the
    exception and prints it with its cause, and the parser is left as it was:
    no feature is extracted.  The run goes on: [save_geojson] writes a
    FeatureCollection of the features the parser holds, none for a new
    parser, and prints the success line. *)
Theorem unloadable_input_is_reported
  (args : arguments) (gt : GeometryTypes.t) (e : exn) :
  make_geometry_types (arg_flag args) = Ok gt ->
  (forall self, parse_file self (Raise e) = (self, [ErrorParsingFile e]))
  /\ main args (Raise e) None
     = mkRun [ErrorParsingFile e; SuccessfullyExtracted 0]
         (File (feature_collection [])) false None
  /\ (forall write_error,
        main args (Raise e) (Some write_error)
        = mkRun [ErrorParsingFile e; ErrorSavingFile write_error]
            FailedWrite false None).
Proof.
  intros Hgt.
  split; [reflexivity |].
  split; [| intros write_error]; unfold main; rewrite Hgt; reflexivity.
Qed.

Lemma unloadable_input_is_reported_witness :
  main (mkArgs None false 127) (Raise JSONDecodeError) None
  = mkRun [ErrorParsingFile JSONDecodeError; SuccessfullyExtracted 0]
      (File (feature_collection [])) false None.
Proof.
  destruct (unloadable_input_is_reported (mkArgs None false 127) 127%Z JSONDecodeError
              eq_refl) as [_ [H _]].
  exact H.
Defined.

(** A run on a file that is not JSON, and on a file that cannot be opened:
    an output file is written. *)
Lemma unloadable_input_writes_a_file :
  file (main (mkArgs None false 127) (Raise JSONDecodeError) None)
  = File (feature_collection [])
  /\ file (main (mkArgs None false 127) (Raise OSError) None) <> NoFile.
Proof. split; [reflexivity | discriminate]. Qed.

(** * Further results *)

(** ** What orientation fixing keeps *)

Lemma assoc_set_unchanged (k : string) (v : json) (m : list (string * json)) :
  assoc k m = Some v -> assoc_set k v m = m.
Proof.
  induction m as [| [k' v'] m IH]; simpl; [reflexivity |].
  destruct (String.eqb k k') eqn:E; intros H.
  - injection H as ->; reflexivity.
  - rewrite (IH H); reflexivity.
Qed.

Lemma assoc_set_keys (k : string) (v : json) (m : list (string * json)) :
  map fst (assoc_set k v m) = map fst m.
Proof.
  induction m as [| [k' v'] m IH]; simpl; [reflexivity |].
  destruct (String.eqb k k'); simpl; [reflexivity | rewrite IH; reflexivity].
Qed.

Lemma oriented_ring_kept (test : bool) (ring : json) (c : bool) (ring' : json) :
  (if test then r <- reverse_ring ring ;; Ok (true, r) else Ok (false, ring))
  = Ok (c, ring') ->
  same_or_reversed ring ring' /\ (c = false -> ring' = ring).
Proof.
  destruct test; intros H.
  - destruct ring as [| b | n | s | l | m]; try discriminate H.
    injection H as <- <-.
    split; [right; exists l; split; reflexivity | discriminate].
  - injection H as <- <-; split; [left; reflexivity | reflexivity].
Qed.

Lemma fix_holes_kept (rings : list json) (c : bool) (rings' : list json) :
  fix_holes rings = Ok (c, rings') ->
  Forall2 same_or_reversed rings rings' /\ (c = false -> rings' = rings).
Proof.
  revert c rings'; induction rings as [| ring rest IH]; intros c rings' H.
  - injection H as <- <-; split; [constructor | reflexivity].
  - cbn [fix_holes] in H.
    apply bind_inv in H; destruct H as [area [_ H]].
    apply bind_inv in H; destruct H as [[c0 ring'] [H0 H]].
    apply bind_inv in H; destruct H as [[c1 rest'] [H1 H]].
    injection H as <- <-.
    destruct (oriented_ring_kept _ _ _ _ H0) as [Hring Hsame].
    destruct (IH _ _ H1) as [Hrest Hsame'].
    split; [constructor; assumption |].
    intros Hc; apply orb_false_elim in Hc; destruct Hc as [-> ->].
    rewrite (Hsame eq_refl), (Hsame' eq_refl); reflexivity.
Qed.

Lemma fix_polygon_orientation_kept
  (coordinates : json) (changed : bool) (coordinates' : json) :
  fix_polygon_orientation coordinates = Ok (changed, coordinates') ->
  (changed = false -> coordinates' = coordinates)
  /\ (forall rings, coordinates = JArr rings ->
        exists rings', coordinates' = JArr rings'
                       /\ Forall2 same_or_reversed rings rings').
Proof.
  unfold fix_polygon_orientation; intros H.
  apply bind_inv in H; destruct H as [ring0 [Hring0 H]].
  apply bind_inv in H; destruct H as [area [_ H]].
  apply bind_inv in H; destruct H as [[c0 ring0'] [H0 H]].
  apply bind_inv in H; destruct H as [holes [Hholes H]].
  apply bind_inv in H; destruct H as [[c1 holes'] [H1 H]].
  injection H as <- <-.
  destruct (oriented_ring_kept _ _ _ _ H0) as [Hkept0 Hsame0].
  destruct (fix_holes_kept _ _ _ H1) as [Hkept1 Hsame1].
  destruct coordinates as [| b | n | s | l | m];
    try (split; [reflexivity | intros rings Hr; discriminate Hr]).
  cbn [py_getitem py_slice_from1] in Hring0, Hholes.
  destruct l as [| r0 l]; [discriminate Hring0 |].
  injection Hring0 as ->; injection Hholes as <-.
  split.
  - intros Hc; apply orb_false_elim in Hc; destruct Hc as [-> ->].
    rewrite (Hsame0 eq_refl), (Hsame1 eq_refl); reflexivity.
  - intros rings Hr; injection Hr as <-.
    exists (ring0' :: holes'); split; [reflexivity | constructor; assumption].
Qed.

(** X1.  [fix_polygon_orientation] never adds, drops or reorders rings and
    never alters a position: when it returns, every ring of a list of rings
    is the ring it was or that ring reversed; when it returns [False] the
    coordinates are as they were. *)
Theorem fix_polygon_orientation_keeps_rings
  (coordinates : json) (changed : bool) (coordinates' : json) :
  fix_polygon_orientation coordinates = Ok (changed, coordinates') ->
  (changed = false -> coordinates' = coordinates)
  /\ (forall rings, coordinates = JArr rings ->
        exists rings', coordinates' = JArr rings'
                       /\ Forall2 same_or_reversed rings rings').
Proof. exact (fix_polygon_orientation_kept coordinates changed coordinates'). Qed.

Lemma fix_polygon_orientation_keeps_rings_witness :
  (true = false -> polygon_of [rev clockwise_square] = polygon_of [clockwise_square])
  /\ (forall rings, polygon_of [clockwise_square] = JArr rings ->
        exists rings', polygon_of [rev clockwise_square] = JArr rings'
                       /\ Forall2 same_or_reversed rings rings').
Proof.
  apply (fix_polygon_orientation_keeps_rings
           (polygon_of [clockwise_square]) true (polygon_of [rev clockwise_square])).
  reflexivity.
Defined.

Lemma fix_polygons_kept (polygons : list json) (c : bool) (polygons' : list json) :
  fix_polygons polygons = Ok (c, polygons') -> c = false -> polygons' = polygons.
Proof.
  revert c polygons'; induction polygons as [| p rest IH]; intros c polygons' H Hc.
  - injection H as _ <-; reflexivity.
  - cbn [fix_polygons] in H.
    apply bind_inv in H; destruct H as [[c0 p'] [H0 H]].
    apply bind_inv in H; destruct H as [[c1 rest'] [H1 H]].
    injection H as <- <-.
    apply orb_false_elim in Hc; destruct Hc as [-> ->].
    destruct (fix_polygon_orientation_kept _ _ _ H0) as [Hp _].
    rewrite (Hp eq_refl), (IH _ _ H1 eq_refl); reflexivity.
Qed.

Lemma fix_geometry_not_polygonal (geometry : json) (r : bool * json) :
  is_polygonal geometry = false ->
  fix_geometry_orientation geometry = Ok r ->
  r = (false, geometry).
Proof.
  intros Hpoly H.
  destruct geometry as [| b | n | s | l | m].
  - injection H as <-; reflexivity.
  - destruct b; [discriminate H | injection H as <-; reflexivity].
  - unfold fix_geometry_orientation in H.
    destruct (py_truthy (JNum n)); [discriminate H | injection H as <-; reflexivity].
  - unfold fix_geometry_orientation in H.
    destruct (py_truthy (JStr s)); cbn [negb py_in bind] in H;
      [| injection H as <-; reflexivity].
    destruct (substringb "type" s); cbn [negb py_getkey bind] in H;
      [discriminate H | injection H as <-; reflexivity].
  - unfold fix_geometry_orientation in H.
    destruct (py_truthy (JArr l)); cbn [negb py_in bind] in H;
      [| injection H as <-; reflexivity].
    destruct (existsb _ l); cbn [negb py_getkey bind] in H;
      [discriminate H | injection H as <-; reflexivity].
  - cbn [is_polygonal] in Hpoly.
    destruct (assoc "type" m) as [ty |] eqn:Hty.
    + rewrite (fix_geometry_typed m ty Hty) in H.
      apply orb_false_elim in Hpoly; destruct Hpoly as [Hp Hm].
      rewrite Hp, Hm in H; injection H as <-; reflexivity.
    + unfold fix_geometry_orientation in H.
      destruct (py_truthy (JObj m)); cbn [negb py_in bind] in H;
        [| injection H as <-; reflexivity].
      rewrite Hty in H; injection H as <-; reflexivity.
Qed.

Lemma fix_geometry_polygonal (geometry : json) (c : bool) (geometry' : json) :
  is_polygonal geometry = true ->
  fix_geometry_orientation geometry = Ok (c, geometry') ->
  exists m coordinates coordinates',
    geometry = JObj m
    /\ assoc "coordinates" m = Some coordinates
    /\ geometry' = JObj (assoc_set "coordinates" coordinates' m)
    /\ (c = false -> coordinates' = coordinates).
Proof.
  intros Hpoly H.
  destruct geometry as [| b | n | s | l | m]; try discriminate Hpoly.
  cbn [is_polygonal] in Hpoly.
  destruct (assoc "type" m) as [ty |] eqn:Hty; [| discriminate Hpoly].
  rewrite (fix_geometry_typed m ty Hty) in H.
  destruct (py_eq_str ty "Polygon").
  - apply bind_inv in H; destruct H as [co [Hco H]].
    apply bind_inv in H; destruct H as [[c0 co'] [Hfix H]].
    injection H as <- <-.
    cbn [py_getkey] in Hco.
    destruct (assoc "coordinates" m) as [co0 |] eqn:Hm; [| discriminate Hco].
    injection Hco as ->.
    exists m, co, co'.
    split; [reflexivity | split; [exact Hm | split; [reflexivity |]]].
    exact (proj1 (fix_polygon_orientation_kept _ _ _ Hfix)).
  - cbn [orb] in Hpoly; rewrite Hpoly in H.
    apply bind_inv in H; destruct H as [co [Hco H]].
    apply bind_inv in H; destruct H as [polygons [Hit H]].
    apply bind_inv in H; destruct H as [[c0 polygons'] [Hfix H]].
    injection H as <- <-.
    cbn [py_getkey] in Hco.
    destruct (assoc "coordinates" m) as [co0 |] eqn:Hm; [| discriminate Hco].
    injection Hco as ->.
    exists m, co, (match co with JArr _ => JArr polygons' | _ => co end).
    split; [reflexivity | split; [exact Hm | split; [reflexivity |]]].
    intros Hc; rewrite (fix_polygons_kept _ _ _ Hfix Hc).
    destruct co; try reflexivity.
    injection Hit as ->; reflexivity.
Qed.

(** X2.  [fix_geometry_orientation] changes nothing but the value under
    'coordinates': when it returns, the geometry has the keys it had and every
    other key has the value it had; a geometry that is not a mapping of type
    'Polygon' or 'MultiPolygon' is returned as it was, with [False]; and
    whenever [False] is returned the geometry is as it was. *)
Theorem fix_geometry_orientation_frame
  (geometry : json) (changed : bool) (geometry' : json) :
  fix_geometry_orientation geometry = Ok (changed, geometry') ->
  (forall k, k <> "coordinates" -> py_getkey geometry' k = py_getkey geometry k)
  /\ py_iter geometry' = py_iter geometry
  /\ (is_polygonal geometry = false -> geometry' = geometry /\ changed = false)
  /\ (changed = false -> geometry' = geometry).
Proof.
  intros H.
  destruct (is_polygonal geometry) eqn:Hpoly.
  - destruct (fix_geometry_polygonal _ _ _ Hpoly H)
      as [m [co [co' [-> [Hco [-> Hsame]]]]]].
    split; [| split; [| split]].
    + intros k Hk; cbn [py_getkey]; rewrite (assoc_set_other k "coordinates" co' m Hk).
      reflexivity.
    + cbn [py_iter].
      rewrite <- (map_map fst JStr (assoc_set "coordinates" co' m)).
      rewrite <- (map_map fst JStr m), assoc_set_keys; reflexivity.
    + discriminate.
    + intros Hc; rewrite (Hsame Hc), (assoc_set_unchanged _ _ _ Hco); reflexivity.
  - pose proof (fix_geometry_not_polygonal _ _ Hpoly H) as Hr.
    injection Hr as -> ->.
    repeat split; reflexivity.
Qed.

Lemma fix_geometry_orientation_frame_witness :
  (forall k, k <> "coordinates" ->
     py_getkey (JObj [("type", JStr "Polygon");
                      ("coordinates", polygon_of [rev clockwise_square])]) k
     = py_getkey clockwise_polygon k)
  /\ is_polygonal clockwise_polygon = true.
Proof.
  destruct (fix_geometry_orientation_frame clockwise_polygon true
              (JObj [("type", JStr "Polygon");
                     ("coordinates", polygon_of [rev clockwise_square])]) eq_refl)
    as [H _].
  split; [exact H | reflexivity].
Defined.

(** ** Rings too short to have an area *)

Lemma calculate_area_short (ring : json) :
  short_ring ring -> calculate_area ring = Ok (HalfInt 0).
Proof.
  intros [l [-> Hlen]].
  destruct l as [| x [| y l]]; [reflexivity | reflexivity |].
  cbn [List.length] in Hlen; lia.
Qed.

Lemma fix_holes_short (rings : list json) :
  Forall short_ring rings -> fix_holes rings = Ok (false, rings).
Proof.
  induction 1 as [| ring rest Hring _ IH]; [reflexivity |].
  cbn [fix_holes]; rewrite (calculate_area_short ring Hring), IH; reflexivity.
Qed.

(** X3.  A ring of fewer than two positions has area 0 whatever its one
    position holds (it is never read): a polygon of such rings is returned as
    it is, with [False], and nothing is raised. *)
Theorem fix_polygon_orientation_short_rings (rings : list json) :
  rings <> [] ->
  Forall short_ring rings ->
  Forall (fun ring => calculate_area ring = Ok (HalfInt 0)) rings
  /\ fix_polygon_orientation (JArr rings) = Ok (false, JArr rings).
Proof.
  intros Hne Hshort; split.
  - eapply Forall_impl; [| exact Hshort]; exact calculate_area_short.
  - destruct Hshort as [| ring0 holes H0 Hholes]; [congruence |].
    unfold fix_polygon_orientation.
    cbn [py_getitem nth_error bind py_slice_from1 tl].
    rewrite (calculate_area_short ring0 H0); cbn [bind is_negative Z.ltb Z.compare].
    rewrite (fix_holes_short holes Hholes); reflexivity.
Qed.

Lemma fix_polygon_orientation_short_rings_witness :
  fix_polygon_orientation (JArr [JArr [JStr "x"]; JArr []])
  = Ok (false, JArr [JArr [JStr "x"]; JArr []]).
Proof.
  apply fix_polygon_orientation_short_rings.
  - discriminate.
  - repeat constructor.
    + exists [JStr "x"]; split; [reflexivity | apply le_n].
    + exists []; split; [reflexivity | apply Nat.le_0_l].
Defined.

(** ** The area of a closed ring does not depend on where the ring is *)

Lemma last_cons_default (r : list position) (b a : position) :
  last (b :: r) a = last r b.
Proof.
  revert b a; induction r as [| c r IH]; intros b a; [reflexivity |].
  change (last (b :: c :: r) a) with (last (c :: r) a).
  rewrite (IH c a), (IH c b); reflexivity.
Qed.

Lemma cross_sum_translate (dx dy : Z) (l : list position) (a : position) :
  cross_sum (map (translate dx dy) (a :: l))
  = (cross_sum (a :: l)
     + dx * (py (last l a) - py a) - dy * (px (last l a) - px a))%Z.
Proof.
  revert a; induction l as [| b r IH]; intros a.
  - cbn [map cross_sum last]; ring.
  - change (cross_sum (map (translate dx dy) (a :: b :: r)))
      with (cross (translate dx dy a) (translate dx dy b)
            + cross_sum (map (translate dx dy) (b :: r)))%Z.
    change (cross_sum (a :: b :: r)) with (cross a b + cross_sum (b :: r))%Z.
    rewrite (IH b), (last_cons_default r b a).
    unfold cross, translate, px, py; cbn [fst snd]; ring.
Qed.

(** X4.  The sum of [calculate_area] stops at the last position and does not
    wrap around: on a closed ring of integer positions (last position equal
    to the first) it is unchanged when every position is moved by the same
    [dx], [dy], and so is what [calculate_area] returns. *)
Theorem calculate_area_translation (dx dy : Z) (pts : list position) :
  closed pts ->
  shoelace_sum (map (translate dx dy) pts) = shoelace_sum pts
  /\ calculate_area (ring_of (map (translate dx dy) pts)) = calculate_area (ring_of pts).
Proof.
  intros Hclosed.
  assert (Hsum : shoelace_sum (map (translate dx dy) pts) = shoelace_sum pts).
  { rewrite !shoelace_sum_cross_sum.
    destruct pts as [| a l]; [reflexivity |].
    rewrite cross_sum_translate.
    cbn [closed] in Hclosed; unfold px, py; rewrite Hclosed; ring. }
  split; [exact Hsum |].
  rewrite !calculate_area_ring, Hsum; reflexivity.
Qed.

Lemma calculate_area_translation_witness :
  shoelace_sum (map (translate 100 (-7)) clockwise_square) = shoelace_sum clockwise_square
  /\ calculate_area (ring_of (map (translate 100 (-7)) clockwise_square))
     = calculate_area (ring_of clockwise_square).
Proof. apply calculate_area_translation; reflexivity. Defined.

(** ** The bits of the geometry types *)

Lemma intersects_bit (mask : Z) (i : nat) :
  GeometryTypes.intersects mask (2 ^ Z.of_nat i)%Z = Z.testbit mask (Z.of_nat i).
Proof.
  unfold GeometryTypes.intersects.
  assert (Hi : (0 <= Z.of_nat i)%Z) by lia.
  destruct (Z.testbit mask (Z.of_nat i)) eqn:Hbit.
  - destruct (Z.eqb_spec (Z.land mask (2 ^ Z.of_nat i)%Z) 0) as [E | _]; [| reflexivity].
    apply (f_equal (fun z => Z.testbit z (Z.of_nat i))) in E.
    rewrite Z.land_spec, Hbit, Z.pow2_bits_true, Z.bits_0 in E by exact Hi.
    discriminate E.
  - replace (Z.land mask (2 ^ Z.of_nat i)%Z) with 0%Z; [reflexivity |].
    symmetry; apply Z.bits_inj'; intros k Hk.
    rewrite Z.land_spec, Z.bits_0, Z.pow2_bits_eqb by exact Hi.
    destruct (Z.eqb_spec (Z.of_nat i) k) as [<- | _];
      [rewrite Hbit; reflexivity | apply andb_false_r].
Qed.

Lemma getattr_canonical (i : nat) :
  (i < 7)%nat ->
  GeometryTypes.getattr (nth i canonical_names EmptyString) = (2 ^ Z.of_nat i)%Z.
Proof.
  intros Hi.
  do 7 (destruct i as [| i]; [reflexivity |]); lia.
Qed.

(** X5.  The filter by geometry type reads one bit per kind, in the order
    of the enumeration: a feature with 'type' and 'properties' whose geometry
    is a mapping with the name of the [i]-th kind as 'type', in any letter
    case, is accepted exactly when bit [i] of [geometry_types] is set. *)
Theorem is_valid_feature_tests_bit
  (self : GeoJSONParser) (m g : list (string * json)) (name : string) (i : nat) :
  (i < 7)%nat ->
  upper name = nth i canonical_names EmptyString ->
  has_key "type" m = true ->
  has_key "properties" m = true ->
  assoc "geometry" m = Some (JObj g) ->
  assoc "type" g = Some (JStr name) ->
  is_valid_feature self (JObj m) = Ok (Z.testbit (geometry_types self) (Z.of_nat i)).
Proof.
  intros Hi Hname Hty Hpr Hg Hgt.
  assert (Hge : has_geometry m = true) by (unfold has_geometry; rewrite Hg; reflexivity).
  unfold is_valid_feature; rewrite Hty, Hpr, Hge; cbn [negb andb orb].
  rewrite andb_false_r; cbn [py_getkey]; rewrite Hg; cbn [bind py_getkey].
  rewrite Hgt; cbn [bind py_upper].
  rewrite Hname, (getattr_canonical i Hi), intersects_bit; reflexivity.
Qed.

Lemma is_valid_feature_tests_bit_witness :
  is_valid_feature (new_parser None true 5%Z) (feature_of_kind "polygon")
  = Ok (Z.testbit 5%Z 2%Z)
  /\ is_valid_feature (new_parser None true 5%Z) (feature_of_kind "LineString")
     = Ok (Z.testbit 5%Z 1%Z).
Proof.
  split.
  - apply (is_valid_feature_tests_bit (new_parser None true 5%Z) _
             [("type", JStr "polygon")] "polygon" 2);
      [repeat constructor | reflexivity | reflexivity | reflexivity | reflexivity
       | reflexivity].
  - apply (is_valid_feature_tests_bit (new_parser None true 5%Z) _
             [("type", JStr "LineString")] "LineString" 1);
      [repeat constructor | reflexivity | reflexivity | reflexivity | reflexivity
       | reflexivity].
Defined.

(** ** What an accepted feature is *)

(** X6.  When [is_valid_feature] returns [True] the feature is a mapping
    with 'type' and 'properties'; it has a geometry other than [null] when
    geometry is required; a geometry other than [null] is a mapping whose
    'type' is a string with a flag in the configured set; and a feature of
    type 'Feature' passes [is_valid_geojson] too. *)
Theorem accepted_feature_shape (self : GeoJSONParser) (f : json) :
  is_valid_feature self f = Ok true ->
  exists m,
    f = JObj m
    /\ has_key "type" m = true
    /\ has_key "properties" m = true
    /\ (require_geometry self = true -> has_geometry m = true)
    /\ (has_geometry m = true ->
        exists g name,
          assoc "geometry" m = Some (JObj g)
          /\ assoc "type" g = Some (JStr name)
          /\ GeometryTypes.intersects (geometry_types self)
               (GeometryTypes.getattr (upper name)) = true)
    /\ (forall ty, assoc "type" m = Some ty -> py_eq_str ty "Feature" = true ->
        is_valid_geojson self f = true).
Proof.
  intros H.
  destruct f as [| b | n | s | l | m]; try discriminate H.
  exists m; split; [reflexivity |].
  pose proof H as H'.
  unfold is_valid_feature in H'.
  destruct (has_key "type" m) eqn:Hty; [| discriminate H'].
  destruct (has_key "properties" m) eqn:Hpr; [| discriminate H'].
  cbn [negb orb] in H'.
  assert (Hreq : require_geometry self = true -> has_geometry m = true).
  { intros Hrg; rewrite Hrg in H'.
    destruct (has_geometry m); [reflexivity | discriminate H']. }
  split; [reflexivity | split; [reflexivity | split; [exact Hreq | split]]].
  - intros Hge.
    destruct (accepted_flag_intersects self m H Hge) as [g [ty [name [Hg [Hgt [Hup Hint]]]]]].
    destruct g as [| b | n | s | l | g]; try discriminate Hgt.
    cbn [py_getkey] in Hgt.
    destruct (assoc "type" g) as [ty0 |] eqn:Hty0; [| discriminate Hgt].
    injection Hgt as ->.
    destruct ty as [| b | n | s | l | o]; try discriminate Hup.
    injection Hup as <-.
    exists g, s; split; [exact Hg | split; [exact Hty0 | exact Hint]].
  - intros ty Hm Hfe.
    unfold is_valid_geojson; rewrite Hm, Hfe, Hpr.
    destruct (require_geometry self); [rewrite (Hreq eq_refl) |]; reflexivity.
Qed.

Lemma accepted_feature_shape_witness :
  exists m,
    point_feature = JObj m
    /\ has_key "type" m = true
    /\ has_key "properties" m = true
    /\ has_geometry m = true.
Proof.
  destruct (accepted_feature_shape (new_parser None true GeometryTypes.ALL)
              point_feature eq_refl) as [m [Hm [Hty [Hpr [Hge _]]]]].
  exists m; split; [exact Hm | split; [exact Hty | split; [exact Hpr |]]].
  apply Hge; reflexivity.
Defined.

Lemma has_key_assoc_set (k k' : string) (v : json) (m : list (string * json)) :
  has_key k (assoc_set k' v m) = has_key k m.
Proof.
  unfold has_key.
  destruct (String.eqb_spec k k') as [-> | Hne].
  - rewrite assoc_set_same; destruct (assoc k' m); reflexivity.
  - rewrite (assoc_set_other k k' v m Hne); reflexivity.
Qed.

(** X7.  [is_valid_feature] tests that 'type' is present and never reads its
    value: the answer is the same whatever stands under 'type', so a member
    of a FeatureCollection need not be of type 'Feature' to be accepted. *)
Theorem is_valid_feature_ignores_type_value
  (self : GeoJSONParser) (m : list (string * json)) (v : json) :
  is_valid_feature self (JObj (assoc_set "type" v m)) = is_valid_feature self (JObj m).
Proof.
  unfold is_valid_feature, has_geometry.
  rewrite !has_key_assoc_set; cbn [py_getkey].
  rewrite (assoc_set_other "geometry" "type" v m) by discriminate.
  reflexivity.
Qed.

(** ** What [parse_file] leaves in the parser *)

Lemma extracted_is_prefix (l : option Z) (rg : bool) (gt : GeometryTypes.t) (doc : json) :
  exists rest, extracted None rg gt doc = extracted l rg gt doc ++ rest.
Proof.
  destruct l as [n |]; [| exists []; rewrite app_nil_r; reflexivity].
  destruct (Z.lt_trichotomy n 0) as [Hneg | [-> | Hpos]].
  - exists (extracted None rg gt doc).
    unfold extracted at 2.
    destruct (parse_file_document (new_parser (Some n) rg gt) doc) as [-> _].
    rewrite (parse_document_negative (new_parser (Some n) rg gt) doc n eq_refl Hneg).
    reflexivity.
  - exists []; rewrite app_nil_r.
    rewrite (extracted_unlimited (Some 0%Z) rg gt doc eq_refl).
    apply extracted_unlimited; reflexivity.
  - exists (skipn (Z.to_nat n) (extracted None rg gt doc)).
    rewrite (extracted_limited n rg gt doc Hpos), firstn_skipn; reflexivity.
Qed.

(** X8.  Whatever the limit, every feature the parser holds after
    [parse_file] on a loaded document is one the document offers under
    'property_geojson' (a Feature fragment or a member of a
    FeatureCollection fragment) and one [is_valid_feature] accepts: nothing
    is invented and nothing rejected gets through. *)
Theorem extracted_features_are_accepted
  (l : option Z) (rg : bool) (gt : GeometryTypes.t) (doc : json) (f : json) :
  In f (extracted l rg gt doc) ->
  accepted (new_parser l rg gt) f = true /\ In f (offered doc).
Proof.
  intros Hin.
  destruct (extracted_is_prefix l rg gt doc) as [rest Hrest].
  assert (Hin' : In f (extracted None rg gt doc))
    by (rewrite Hrest; apply in_or_app; left; exact Hin).
  rewrite (extracted_unlimited None rg gt doc eq_refl) in Hin'.
  destruct (gathered_document_prefix (new_parser None rg gt) doc) as [rest' [Heq _]].
  assert (Hfil : In f (filter (accepted (new_parser None rg gt)) (offered doc)))
    by (rewrite Heq; apply in_or_app; left; exact Hin').
  apply filter_In in Hfil; destruct Hfil as [Hoff Hacc].
  split; [| exact Hoff].
  rewrite (accepted_same_filter (new_parser l rg gt) (new_parser None rg gt));
    [exact Hacc | split; reflexivity].
Qed.

Lemma extracted_features_are_accepted_witness :
  accepted (new_parser (Some 1%Z) true GeometryTypes.ALL) point_feature = true
  /\ In point_feature
       (offered (document_of [record_of point_feature; record_of linestring_feature])).
Proof.
  apply (extracted_features_are_accepted (Some 1%Z) true GeometryTypes.ALL
           (document_of [record_of point_feature; record_of linestring_feature])).
  left; reflexivity.
Defined.

Lemma with_features_twice (self : GeoJSONParser) (a b : list json) :
  with_features (with_features self a) b = with_features self b.
Proof. reflexivity. Qed.

Lemma extract_features_grows (self : GeoJSONParser) (data : json) (self' : GeoJSONParser) :
  extract_features self data = Ok self' ->
  exists added, self' = with_features self (features self ++ added).
Proof.
  intros H.
  destruct (limit_reached self) eqn:Hreach.
  - rewrite (extract_features_limit_reached self data Hreach) in H.
    injection H as <-; exists []; rewrite with_features_nil; reflexivity.
  - rewrite (extract_features_contribution self data Hreach) in H.
    apply bind_inv in H; destruct H as [valid [_ H]].
    injection H as <-; exists (fitting self valid); reflexivity.
Qed.

Lemma parse_items_grows (items : list json) (self : GeoJSONParser) :
  exists added,
    fst (parse_items self items) = with_features self (features self ++ added).
Proof.
  revert self; induction items as [| item rest IH]; intros self.
  - exists []; cbn [parse_items fst]; rewrite with_features_nil; reflexivity.
  - cbn [parse_items].
    destruct (limit_reached self);
      [exists []; cbn [fst]; rewrite with_features_nil; reflexivity |].
    destruct (extract_features self item) as [self' | e] eqn:He;
      [| exists []; cbn [fst]; rewrite with_features_nil; reflexivity].
    destruct (extract_features_grows self item self' He) as [added ->].
    destruct (IH (with_features self (features self ++ added))) as [more ->].
    exists (added ++ more).
    cbn [features with_features]; rewrite app_assoc; reflexivity.
Qed.

(** X9.  [parse_file] only appends to the accepted features: those the
    parser held stay first and in their order, and [limit],
    [require_geometry] and [geometry_types] are never changed, whatever the
    input is and also when loading or extraction raises. *)
Theorem parse_file_only_appends (self : GeoJSONParser) (loaded : result json) :
  exists added,
    fst (parse_file self loaded) = with_features self (features self ++ added).
Proof.
  destruct loaded as [doc | e];
    [| exists []; cbn [parse_file fst]; rewrite with_features_nil; reflexivity].
  destruct (parse_file_document self doc) as [-> _].
  rewrite parse_document_items.
  destruct (iteration_error doc);
    [exists []; cbn [fst]; rewrite with_features_nil; reflexivity |].
  apply parse_items_grows.
Qed.

(** X10.  Once the loop of [parse_file] has stopped, at the limit or on an
    exception, the records that follow are never read: appending any records,
    valid or malformed, changes neither the features nor what is reported. *)
Theorem parse_items_ignores_the_rest (self : GeoJSONParser) (items more : list json) :
  snd (parse_items self items) <> None
  \/ limit_reached (fst (parse_items self items)) = true ->
  parse_items self (items ++ more) = parse_items self items.
Proof.
  rewrite !parse_items_fold, fold_left_app.
  destruct (fold_left visit items (self, None)) as [s [e |]]; cbn [fst snd].
  - intros _; apply visit_ended.
  - intros [H | H]; [congruence | apply visit_limit_reached; exact H].
Qed.

Lemma parse_items_ignores_the_rest_witness :
  parse_items (new_parser (Some 1%Z) true GeometryTypes.ALL)
    ([record_of point_feature] ++ [record_of (feature_with_geometry (JObj []))])
  = parse_items (new_parser (Some 1%Z) true GeometryTypes.ALL) [record_of point_feature].
Proof.
  apply parse_items_ignores_the_rest; right; reflexivity.
Defined.

(** ** The orientation loop of [main] and of [save_geojson] *)

Lemma fix_features_cons (f : json) (rest : list json) :
  fix_features (f :: rest)
  = ('(c, f') <- fix_feature f ;;
     '(n, rest') <- fix_features rest ;;
     Ok (((if c then 1 else 0) + n)%nat, f' :: rest')).
Proof.
  cbn [fix_features]; unfold fix_feature.
  destruct (py_in "geometry" f) as [has | e]; reflexivity.
Qed.

Lemma fix_geometry_other_kind (m : list (string * json)) :
  is_polygonal (JObj m) = false ->
  fix_geometry_orientation (JObj m) = Ok (false, JObj m).
Proof.
  intros Hpoly; cbn [is_polygonal] in Hpoly.
  destruct (assoc "type" m) as [ty |] eqn:Hty.
  - rewrite (fix_geometry_typed m ty Hty).
    apply orb_false_elim in Hpoly; destruct Hpoly as [-> ->]; reflexivity.
  - unfold fix_geometry_orientation.
    destruct (py_truthy (JObj m)); [| reflexivity].
    cbn [negb py_in bind]; rewrite Hty; reflexivity.
Qed.

Lemma well_formed_geometry_settles (geometry : json) :
  well_formed_geometry geometry ->
  exists changed fixed,
    fix_geometry_orientation geometry = Ok (changed, fixed)
    /\ fix_geometry_orientation fixed = Ok (false, fixed).
Proof.
  intros [m rings Hty Hco Hne | m polygons Hty Hco Hne].
  - set (fixed := polygon_of (oriented_polygon rings)).
    exists (polygon_changed rings), (JObj (assoc_set "coordinates" fixed m)).
    assert (Hty' : assoc "type" (assoc_set "coordinates" fixed m) = Some (JStr "Polygon"))
      by (rewrite assoc_set_other; [exact Hty | discriminate]).
    assert (Hco' : assoc "coordinates" (assoc_set "coordinates" fixed m) = Some fixed)
      by (rewrite assoc_set_same, Hco; reflexivity).
    split; [exact (fix_geometry_polygon m rings Hty Hco Hne) |].
    rewrite (fix_geometry_polygon _ _ Hty' Hco' (oriented_polygon_sound rings Hne)).
    rewrite oriented_polygon_unchanged, oriented_polygon_idem, assoc_set_twice.
    reflexivity.
  - set (fixed := multipolygon_of (map oriented_polygon polygons)).
    exists (existsb polygon_changed polygons), (JObj (assoc_set "coordinates" fixed m)).
    assert (Hty' : assoc "type" (assoc_set "coordinates" fixed m)
                   = Some (JStr "MultiPolygon"))
      by (rewrite assoc_set_other; [exact Hty | discriminate]).
    assert (Hco' : assoc "coordinates" (assoc_set "coordinates" fixed m) = Some fixed)
      by (rewrite assoc_set_same, Hco; reflexivity).
    assert (Hne' : Forall sound_polygon (map oriented_polygon polygons)).
    { apply Forall_map; eapply Forall_impl; [| exact Hne].
      exact oriented_polygon_sound. }
    split; [exact (fix_geometry_multipolygon m polygons Hty Hco Hne) |].
    rewrite (fix_geometry_multipolygon _ _ Hty' Hco' Hne').
    rewrite existsb_oriented_polygons, map_map.
    rewrite (map_ext _ _ oriented_polygon_idem), assoc_set_twice.
    reflexivity.
Qed.

Lemma orientable_geometry_settles (g : json) :
  orientable_geometry g ->
  exists changed fixed,
    fix_geometry_orientation g = Ok (changed, fixed)
    /\ fix_geometry_orientation fixed = Ok (false, fixed).
Proof.
  intros [Hwf | [m [-> Hother]]].
  - exact (well_formed_geometry_settles g Hwf).
  - exists false, (JObj m); split; exact (fix_geometry_other_kind m Hother).
Qed.

Lemma fix_feature_settles (f : json) :
  orientable_feature f ->
  exists c f', fix_feature f = Ok (c, f') /\ fix_feature f' = Ok (false, f').
Proof.
  intros [fm [-> Hgeo]].
  unfold fix_feature at 1; cbn [py_in py_getkey bind].
  destruct (assoc "geometry" fm) as [g |] eqn:Hg; cbn [bind].
  - destruct (py_truthy g) eqn:Ht.
    + destruct (orientable_geometry_settles g (Hgeo g eq_refl Ht))
        as [c [g' [Hfix Hfix']]].
      rewrite Hfix; cbn [bind with_geometry].
      exists c, (JObj (assoc_set "geometry" g' fm)); split; [reflexivity |].
      unfold fix_feature; cbn [py_in py_getkey bind].
      rewrite assoc_set_same, Hg; cbn [bind].
      destruct (py_truthy g'); [| reflexivity].
      rewrite Hfix'; cbn [bind with_geometry]; rewrite assoc_set_twice; reflexivity.
    + exists false, (JObj fm); split; [reflexivity |].
      unfold fix_feature; cbn [py_in py_getkey bind]; rewrite Hg; cbn [bind].
      rewrite Ht; reflexivity.
  - exists false, (JObj fm); split; [reflexivity |].
    unfold fix_feature; cbn [py_in py_getkey bind]; rewrite Hg; reflexivity.
Qed.

Lemma fix_features_settle (fs : list json) :
  Forall orientable_feature fs ->
  exists n fs',
    fix_features fs = Ok (n, fs') /\ fix_features fs' = Ok (0%nat, fs').
Proof.
  induction 1 as [| f rest Hf _ IH].
  - exists 0%nat, []; split; reflexivity.
  - destruct (fix_feature_settles f Hf) as [c [f' [Hfix Hfix']]].
    destruct IH as [n [rest' [Hrest Hrest']]].
    exists ((if c then 1 else 0) + n)%nat, (f' :: rest'); split.
    + rewrite fix_features_cons, Hfix; cbn [bind]; rewrite Hrest; reflexivity.
    + rewrite fix_features_cons, Hfix'; cbn [bind]; rewrite Hrest'; reflexivity.
Qed.

(** X11.  In a run [save_geojson] repeats the orientation loop that [main]
    has just run.  When the extracted features have geometries of integer
    positions that are well formed, or geometries of other kinds, or none,
    the second loop changes nothing: the file holds the features as the
    loop of [main] left them, the line 'Fixed orientation of N polygons' is
    not printed, and the count of [main] only decides the '_fixori' suffix
    of the file name. *)
Theorem main_fixes_orientation_once
  (args : arguments) (gt : GeometryTypes.t) (doc : json) :
  make_geometry_types (arg_flag args) = Ok gt ->
  Forall orientable_feature
    (extracted (arg_limit args) (negb (arg_allow_empty_geom args)) gt doc) ->
  exists n fs,
    fix_features (extracted (arg_limit args) (negb (arg_allow_empty_geom args)) gt doc)
    = Ok (n, fs)
    /\ fix_features fs = Ok (0%nat, fs)
    /\ main args (Ok doc) None
       = mkRun
           (snd (parse_file
                   (new_parser (arg_limit args) (negb (arg_allow_empty_geom args)) gt)
                   (Ok doc))
            ++ [SuccessfullyExtracted (List.length fs)])
           (File (feature_collection fs)) (0 <? n)%nat None.
Proof.
  intros Hgt Hok.
  destruct (fix_features_settle _ Hok) as [n [fs [Hfix Hfix']]].
  exists n, fs; split; [exact Hfix | split; [exact Hfix' |]].
  unfold main; rewrite Hgt.
  unfold extracted in Hfix.
  destruct (parse_file _ (Ok doc)) as [parser out1]; cbn [fst snd] in *.
  rewrite Hfix; unfold save_geojson; cbn [features with_features].
  rewrite Hfix'; reflexivity.
Qed.

Lemma clockwise_feature_orientable :
  Forall orientable_feature [polygon_feature [clockwise_square]; point_feature].
Proof.
  constructor; [| constructor; [| constructor]].
  - eexists; split; [reflexivity |].
    intros g Hg _; injection Hg as <-; left.
    apply (wf_polygon _ [clockwise_square]); [reflexivity | reflexivity |].
    split; [discriminate | exact clockwise_square_in_range].
  - eexists; split; [reflexivity |].
    intros g Hg _; injection Hg as <-; right.
    eexists; split; reflexivity.
Qed.

Lemma main_fixes_orientation_once_witness :
  exists n fs,
    fix_features
      (extracted None true 127%Z
         (document_of [record_of (polygon_feature [clockwise_square]);
                       record_of point_feature]))
    = Ok (n, fs)
    /\ fix_features fs = Ok (0%nat, fs)
    /\ main (mkArgs None false 127)
         (Ok (document_of [record_of (polygon_feature [clockwise_square]);
                           record_of point_feature])) None
       = mkRun
           (snd (parse_file (new_parser None (negb false) 127%Z)
                   (Ok (document_of [record_of (polygon_feature [clockwise_square]);
                                     record_of point_feature])))
            ++ [SuccessfullyExtracted (List.length fs)])
           (File (feature_collection fs)) (0 <? n)%nat None.
Proof.
  apply (main_fixes_orientation_once (mkArgs None false 127) 127%Z
           (document_of [record_of (polygon_feature [clockwise_square]);
                         record_of point_feature]) eq_refl).
  exact clockwise_feature_orientable.
Defined.

Lemma fix_features_raises (fs : list json) :
  Exists unfixable_feature fs -> exists e, fix_features fs = Raise e.
Proof.
  induction 1 as [f rest [fm [g [e [-> [Hg [Ht Hfix]]]]]] | f rest _ [e IH]].
  - exists e; rewrite fix_features_cons; unfold fix_feature.
    cbn [py_in py_getkey bind]; rewrite Hg; cbn [bind]; rewrite Ht, Hfix.
    reflexivity.
  - rewrite fix_features_cons.
    destruct (fix_feature f) as [[c f'] | e0]; cbn [bind].
    + exists e; rewrite IH; reflexivity.
    + exists e0; reflexivity.
Qed.

(** X12.  The orientation loop of [main] stands outside every [try].  When
    one of the features held after [parse_file] has a geometry on which
    [fix_geometry_orientation] raises (a Polygon without rings passes
    validation), the run ends with the exception uncaught: [save_geojson] is
    not called and no file is written. *)
Theorem main_orientation_uncaught
  (args : arguments) (gt : GeometryTypes.t) (loaded : result json)
  (write_error : option exn) :
  make_geometry_types (arg_flag args) = Ok gt ->
  Exists unfixable_feature
    (features
       (fst (parse_file
               (new_parser (arg_limit args) (negb (arg_allow_empty_geom args)) gt)
               loaded))) ->
  exists e,
    main args loaded write_error
    = mkRun
        (snd (parse_file
                (new_parser (arg_limit args) (negb (arg_allow_empty_geom args)) gt)
                loaded))
        NoFile false (Some e).
Proof.
  intros Hgt Hbad.
  destruct (fix_features_raises _ Hbad) as [e He].
  exists e; unfold main; rewrite Hgt.
  destruct (parse_file _ loaded) as [parser out1]; cbn [fst snd] in *.
  rewrite He; reflexivity.
Qed.

Lemma main_orientation_uncaught_witness :
  exists e,
    main (mkArgs None false 127)
      (Ok (document_of [record_of point_feature; record_of empty_polygon_feature])) None
    = mkRun
        (snd (parse_file (new_parser None (negb false) 127%Z)
                (Ok (document_of [record_of point_feature;
                                  record_of empty_polygon_feature]))))
        NoFile false (Some e).
Proof.
  apply (main_orientation_uncaught (mkArgs None false 127) 127%Z _ None eq_refl).
  apply Exists_cons_tl, Exists_cons_hd.
  eexists _, _, IndexError.
  split; [reflexivity | split; [reflexivity | split; reflexivity]].
Defined.

(** ** Documents that are not mappings *)

Lemma extract_features_not_dict (self : GeoJSONParser) (data : json) :
  isinstance_dict data = false ->
  extract_features self data = Ok self \/ extract_features self data = Raise TypeError.
Proof.
  intros Hnd; unfold extract_features.
  destruct (limit_reached self); [left; reflexivity |].
  destruct data as [| b | n | s | l | m]; try discriminate Hnd;
    try (right; reflexivity); cbn [py_in bind py_getkey].
  - destruct (substringb "property_geojson" s); [right | left]; reflexivity.
  - destruct (existsb _ l); [right | left]; reflexivity.
Qed.

(** X13.  Only a mapping is searched.  From a top-level document that is not
    a mapping (an array of records, a string, a number) [parse_file]
    extracts nothing: the parser is left as it was, and the only thing that
    can be printed is a [TypeError]. *)
Theorem parse_file_not_a_mapping (self : GeoJSONParser) (doc : json) :
  isinstance_dict doc = false ->
  fst (parse_file self (Ok doc)) = self
  /\ (snd (parse_file self (Ok doc)) = []
      \/ snd (parse_file self (Ok doc)) = [ErrorParsingFile TypeError]).
Proof.
  intros Hnd; unfold parse_file, parse_document; rewrite Hnd; cbn [andb].
  destruct (extract_features_not_dict self doc Hnd) as [-> | ->];
    split; (reflexivity || (left; reflexivity) || (right; reflexivity)).
Qed.

Lemma parse_file_not_a_mapping_witness :
  fst (parse_file (new_parser None true GeometryTypes.ALL)
         (Ok (JArr [record_of point_feature])))
  = new_parser None true GeometryTypes.ALL.
Proof.
  apply (parse_file_not_a_mapping (new_parser None true GeometryTypes.ALL)
           (JArr [record_of point_feature]) eq_refl).
Defined.

(** ** What [calculate_area] needs of a ring *)

Lemma nth_error_middle (pre rest : list json) (a : json) :
  nth_error (pre ++ a :: rest) (List.length pre) = Some a.
Proof. induction pre as [| p pre IH]; [reflexivity | exact IH]. Qed.

Lemma py_mul_numeric (x y : json) (v : number) :
  py_mul x y = Ok v -> exists nx ny, numeric x = Some nx /\ numeric y = Some ny.
Proof.
  unfold py_mul; intros H.
  destruct (numeric x) as [nx |]; [| discriminate H].
  destruct (numeric y) as [ny |]; [| discriminate H].
  exists nx, ny; split; reflexivity.
Qed.

Lemma area_loop_numeric (l pre : list json) (acc v : number) :
  (2 <= List.length l)%nat ->
  area_loop (JArr (pre ++ l)) (List.length pre) (List.length l - 1) acc = Ok v ->
  Forall numeric_pair l.
Proof.
  revert pre acc; induction l as [| a rest IH]; intros pre acc Hlen H;
    [cbn in Hlen; lia |].
  destruct rest as [| b r]; [cbn in Hlen; lia |].
  replace (List.length (a :: b :: r) - 1)%nat with (S (List.length r)) in H
    by (cbn [List.length]; lia).
  cbn [area_loop] in H.
  assert (Ha : py_getitem (JArr (pre ++ a :: b :: r)) (List.length pre) = Ok a)
    by (cbn [py_getitem]; rewrite nth_error_middle; reflexivity).
  assert (Hb : py_getitem (JArr (pre ++ a :: b :: r)) (List.length pre + 1) = Ok b).
  { replace (pre ++ a :: b :: r) with ((pre ++ [a]) ++ b :: r)
      by (rewrite <- app_assoc; reflexivity).
    replace (List.length pre + 1)%nat with (List.length (pre ++ [a]))
      by (rewrite length_app; reflexivity).
    cbn [py_getitem]; rewrite nth_error_middle; reflexivity. }
  rewrite Ha, Hb in H; cbn [bind] in H.
  apply bind_inv in H; destruct H as [xa [Hxa H]].
  apply bind_inv in H; destruct H as [yb [Hyb H]].
  apply bind_inv in H; destruct H as [p [Hp H]].
  apply bind_inv in H; destruct H as [acc1 [_ H]].
  apply bind_inv in H; destruct H as [xb [Hxb H]].
  apply bind_inv in H; destruct H as [ya [Hya H]].
  apply bind_inv in H; destruct H as [q [Hq H]].
  apply bind_inv in H; destruct H as [acc2 [_ H]].
  destruct (py_mul_numeric _ _ _ Hp) as [nxa [nyb [Hnxa Hnyb]]].
  destruct (py_mul_numeric _ _ _ Hq) as [nxb [nya [Hnxb Hnya]]].
  assert (Hpa : numeric_pair a)
    by (exists xa, ya, nxa, nya; repeat split; assumption).
  assert (Hpb : numeric_pair b)
    by (exists xb, yb, nxb, nyb; repeat split; assumption).
  constructor; [exact Hpa |].
  destruct r as [| c r']; [constructor; [exact Hpb | constructor] |].
  apply (IH (pre ++ [a]) acc2); [cbn [List.length]; lia |].
  rewrite <- app_assoc, length_app; cbn [app List.length].
  rewrite Nat.add_1_r.
  replace (S (S (List.length r')) - 1)%nat with (S (List.length r')) by lia.
  exact H.
Qed.

(** X14.  [calculate_area] reads items 0 and 1 of every position and
    multiplies them: on a ring of two or more positions it returns only when
    every position has an item 0 and an item 1 that are numbers. *)
Theorem calculate_area_needs_numbers (l : list json) (area : half) :
  (2 <= List.length l)%nat ->
  calculate_area (JArr l) = Ok area ->
  Forall numeric_pair l.
Proof.
  intros Hlen H; unfold calculate_area in H; cbn [py_len bind] in H.
  apply bind_inv in H; destruct H as [v [H _]].
  exact (area_loop_numeric l [] (NInt 0) v Hlen H).
Qed.

Lemma calculate_area_needs_numbers_witness :
  Forall numeric_pair (map coordinate clockwise_square)
  /\ calculate_area (JArr [JArr [JNum (NInt 0)]; JArr [JNum (NInt 0); JNum (NInt 1)]])
     = Raise IndexError
  /\ calculate_area (JArr [JArr [JNum (NInt 0); JNull]; JArr [JNum (NInt 0); JNull]])
     = Raise TypeError.
Proof.
  split; [| split; reflexivity].
  apply (calculate_area_needs_numbers (map coordinate clockwise_square) (HalfInt (-2)%Z));
    [repeat constructor | reflexivity].
Defined.
